(** * gjs: the error bridge of [gjs/jsapi-util-error.cpp]

    A shallow embedding of the exception-throwing helpers, the GError
    converter, the stack-trace formatter and the warning reporter, with
    the scripting runtime kept behind an interface of fallible calls. *)

From Stdlib Require Import String Ascii List ZArith Bool Lia.
From Stdlib Require Import DecimalString.
Import ListNotations.

Local Open Scope string_scope.
Local Open Scope Z_scope.

(** ** printf-style formatting

    [g_strdup_vprintf] for the conversions this file and its callers use:
    [%s], [%d], [%i] and [%%].  A [const char *] is a [string]; a pointer
    is an [option] only where the source tests it against NULL. *)

Inductive printf_arg : Type :=
| ArgString (s : string)
| ArgInt (i : Z).

(** An [unsigned] passed for [%d]/[%i] is read back as a 32-bit [int]. *)
Definition as_int (z : Z) : Z := (z + 2 ^ 31) mod 2 ^ 32 - 2 ^ 31.

Definition decimal (z : Z) : string := NilZero.string_of_int (Z.to_int z).

Fixpoint g_strdup_vprintf (format : string) (args : list printf_arg) : string :=
  match format with
  | EmptyString => EmptyString
  | String a tail =>
      if Ascii.eqb a "%" then
        match tail with
        | EmptyString => String a EmptyString
        | String c rest =>
            if Ascii.eqb c "%" then String "%" (g_strdup_vprintf rest args)
            else if Ascii.eqb c "s" then
              match args with
              | ArgString s :: args' => s ++ g_strdup_vprintf rest args'
              | _ => g_strdup_vprintf rest (tl args)
              end
            else if Ascii.eqb c "d" || Ascii.eqb c "i" then
              match args with
              | ArgInt i :: args' =>
                  decimal (as_int i) ++ g_strdup_vprintf rest args'
              | _ => g_strdup_vprintf rest (tl args)
              end
            else String a (String c (g_strdup_vprintf rest args))
        end
      else String a (g_strdup_vprintf tail args)
  end.

(** ** Values of the scripting runtime *)

(** [JSProtoKey]: the nine error classes the source names, and every
    other key of the runtime's prototype enumeration by its index. *)
Inductive JSProtoKey : Type :=
| JSProto_Error
| JSProto_InternalError
| JSProto_EvalError
| JSProto_RangeError
| JSProto_ReferenceError
| JSProto_SyntaxError
| JSProto_TypeError
| JSProto_URIError
| JSProto_StopIteration
| JSProto_Other (index : nat).

(** A non-null [JSObject *] is its address; a [JSString] is its text. *)
Definition JSObject := nat.
Definition JSString := string.

Inductive JSValue : Type :=
| UndefinedValue
| NullValue
| StringValue (s : JSString)
| ObjectValue (o : JSObject).

(** [JS::ObjectOrNullValue] and [JS::Value::isNull]. *)
Definition ObjectOrNullValue (o : option JSObject) : JSValue :=
  match o with
  | Some obj => ObjectValue obj
  | None => NullValue
  end.

Definition isNull (v : JSValue) : bool :=
  match v with
  | NullValue => true
  | _ => false
  end.

(** [GError]: domain quark, code and message. *)
Record GError : Type := mkGError {
  domain : N;
  code : Z;
  message : string
}.

(** The one debug topic and the one interned property name used here. *)
Inductive GjsDebugTopic : Type := GJS_DEBUG_CONTEXT.
Inductive GjsConstString : Type := GJS_STRING_NAME.

(** ** Observable calls

    Every call the functions make to an allocator, to a scoped runtime
    region, to a fallible runtime entry point or to a diagnostic sink is
    recorded, in order. *)

Inductive RuntimeCall : Type :=
| Call_gjs_string_from_utf8 (utf8 : string)
| Call_JS_GetClassObject (key : JSProtoKey)
| Call_JS_New (constructor : JSObject) (args : list JSValue)
| Call_gjs_object_set_property (obj : JSObject) (name : GjsConstString)
    (value : JSValue)
| Call_gjs_error_from_gerror (error : GError) (add_stack : bool)
| Call_BuildStackString (saved_frame : option JSObject) (indent : nat)
| Call_JS_EncodeStringToUTF8 (str : JSString).

Inductive Event : Type :=
| EvAlloc (buffer : string)
| EvFree (buffer : string)
| EvEnterCompartment (global : JSObject)
| EvLeaveCompartment
| EvBeginRequest
| EvEndRequest
| EvRuntime (c : RuntimeCall)
| EvReportError (msg : string)
| EvDebug (topic : GjsDebugTopic) (msg : string)
| EvCritical (func : string) (expr : string)
| EvGErrorFree (error : GError).

(** ** The execution context and the runtime interface *)

Section RuntimeInterface.

Variable heap : Type.

(** Modelled from the spec: the per-context PendingExceptionSlot of the
    data model, next to the runtime's own state, which stays opaque. *)
Record JSContext : Type := mkContext {
  cx_heap : heap;
  cx_pending : option JSValue
}.

(** A fallible runtime call: a result or a failure, and whatever the
    runtime did to its state and to the pending slot meanwhile. *)
Definition call (A : Type) : Type := JSContext -> option A * JSContext.

(** The entry points of the engine and of the binding layer that the
    source calls and that are not part of it. *)
Class Runtime : Type := {
  gjs_get_import_global : JSContext -> JSObject;
  gjs_string_from_utf8 : string -> call JSValue;
  JS_GetClassObject : JSProtoKey -> call JSObject;
  JS_New : JSObject -> list JSValue -> call JSObject;
  gjs_object_set_property : JSObject -> GjsConstString -> JSValue -> call unit;
  JS_ReportErrorUTF8 : string -> JSContext -> JSContext;
  gjs_error_from_gerror : GError -> bool -> call JSObject;
  BuildStackString : option JSObject -> nat -> call JSString;
  JS_EncodeStringToUTF8 : JSString -> call string;
  g_filename_from_utf8 : string -> option string
}.

(** An effectful computation: a value, the context afterwards and the
    calls recorded on the way. *)
Record Result (A : Type) : Type := mkResult {
  value : A;
  after : JSContext;
  events : list Event
}.

Definition M (A : Type) : Type := JSContext -> Result A.

End RuntimeInterface.

Arguments mkContext {heap} _ _.
Arguments gjs_get_import_global {heap Runtime} _.
Arguments gjs_string_from_utf8 {heap Runtime} _ _.
Arguments JS_GetClassObject {heap Runtime} _ _.
Arguments JS_New {heap Runtime} _ _ _.
Arguments gjs_object_set_property {heap Runtime} _ _ _ _.
Arguments JS_ReportErrorUTF8 {heap Runtime} _ _.
Arguments gjs_error_from_gerror {heap Runtime} _ _ _.
Arguments BuildStackString {heap Runtime} _ _ _.
Arguments JS_EncodeStringToUTF8 {heap Runtime} _ _.
Arguments g_filename_from_utf8 {heap Runtime} _.
Arguments cx_heap {heap} _.
Arguments cx_pending {heap} _.
Arguments mkResult {heap A} _ _ _.
Arguments value {heap A} _.
Arguments after {heap A} _.
Arguments events {heap A} _.

Declare Scope bridge_scope.
Delimit Scope bridge_scope with bridge.

Section Monad.

Context {heap : Type}.

Definition ret {A : Type} (a : A) : M heap A :=
  fun cx => mkResult a cx [].

Definition bind {A B : Type} (m : M heap A) (f : A -> M heap B) : M heap B :=
  fun cx =>
    match m cx with
    | mkResult a cx1 t1 =>
        match f a cx1 with
        | mkResult b cx2 t2 => mkResult b cx2 (t1 ++ t2)%list
        end
    end.

Definition emit (e : Event) : M heap unit :=
  fun cx => mkResult tt cx [e].

(** Run a fallible runtime call, recording it. *)
Definition runtime {A : Type} (c : RuntimeCall) (f : call heap A)
  : M heap (option A) :=
  fun cx => mkResult (fst (f cx)) (snd (f cx)) [EvRuntime c].

End Monad.

Notation "x <- m ;; k" := (bind m (fun x => k))
  (at level 61, m at next level, right associativity) : bridge_scope.
Notation "m ;; k" := (bind m (fun _ => k))
  (at level 61, right associativity) : bridge_scope.

Local Open Scope bridge_scope.

(** The closed set of error classes of [gjs_throw_custom]. *)
Definition ErrorKind : list JSProtoKey :=
  [JSProto_Error; JSProto_InternalError; JSProto_EvalError;
   JSProto_RangeError; JSProto_ReferenceError; JSProto_SyntaxError;
   JSProto_TypeError; JSProto_URIError; JSProto_StopIteration].

(** A call of one of the public entry points, with its arguments. *)
Inductive RaiseCall : Type :=
| Throw (format : string) (args : list printf_arg)
| ThrowCustom (kind : JSProtoKey) (error_name : option string)
    (format : string) (args : list printf_arg)
| ThrowLiteral (text : string).

(** The class a call asks for, and the message it formats. *)
Definition raise_kind (r : RaiseCall) : JSProtoKey :=
  match r with
  | ThrowCustom kind _ _ _ => kind
  | _ => JSProto_Error
  end.

Definition raise_name (r : RaiseCall) : option string :=
  match r with
  | ThrowCustom _ error_name _ _ => error_name
  | _ => None
  end.

Definition raise_message (r : RaiseCall) : string :=
  match r with
  | Throw format args => g_strdup_vprintf format args
  | ThrowCustom _ _ format args => g_strdup_vprintf format args
  | ThrowLiteral text => g_strdup_vprintf "%s" [ArgString text]
  end.

Section Bridge.

Context {heap : Type} {R : Runtime heap}.

(** *** Pending-exception slot and scoped regions *)

(** Modelled from the spec: check-occupied on the PendingExceptionSlot. *)
Definition JS_IsExceptionPending : M heap bool :=
  fun cx =>
    mkResult (match cx_pending cx with Some _ => true | None => false end)
             cx [].

(** Modelled from the spec: set on the PendingExceptionSlot. *)
Definition JS_SetPendingException (v : JSValue) : M heap unit :=
  fun cx => mkResult tt (mkContext (cx_heap cx) (Some v)) [].

(** Modelled from the spec: the explicit clear of the slot. *)
Definition JS_ClearPendingException : M heap unit :=
  fun cx => mkResult tt (mkContext (cx_heap cx) None) [].

(** Modelled from the spec: entering and leaving the scoped request
    region. *)
Definition JS_BeginRequest : M heap unit := emit EvBeginRequest.
Definition JS_EndRequest : M heap unit := emit EvEndRequest.

(** Modelled from the spec: save on the PendingExceptionSlot; the
    constructor of [JS::AutoSaveExceptionState] takes the pending
    exception out of the slot. *)
Definition AutoSaveExceptionState : M heap (option JSValue) :=
  fun cx => mkResult (cx_pending cx) (mkContext (cx_heap cx) None) [].

(** Modelled from the spec: restore on the PendingExceptionSlot. *)
Definition AutoSaveExceptionState_restore (saved : option JSValue)
  : M heap unit :=
  fun cx => mkResult tt (mkContext (cx_heap cx) saved) [].

Definition report_error (msg : string) : M heap unit :=
  fun cx => mkResult tt (JS_ReportErrorUTF8 msg cx) [EvReportError msg].

Definition gjs_debug (topic : GjsDebugTopic) (format : string)
           (args : list printf_arg) : M heap unit :=
  emit (EvDebug topic (g_strdup_vprintf format args)).

(** *** gjs_throw_valist *)

(** The optional [name] property: lines 100-106. *)
Definition set_error_name (new_exc : JSObject) (error_name : option string)
  : M heap bool :=
  match error_name with
  | None => ret true
  | Some name =>
      nv <- runtime (Call_gjs_string_from_utf8 name)
                    (gjs_string_from_utf8 name) ;;
      match nv with
      | None => ret false
      | Some name_value =>
          set <- runtime (Call_gjs_object_set_property new_exc
                            GJS_STRING_NAME name_value)
                         (gjs_object_set_property new_exc GJS_STRING_NAME
                            name_value) ;;
          match set with
          | None => ret false
          | Some _ => ret true
          end
      end
  end.

(** Lines 84-111: from [result = false] to the label [out]; the value
    is [result] as the label finds it. *)
Definition build_and_install (error_kind : JSProtoKey)
           (error_name : option string) (s : string) : M heap bool :=
  a0 <- runtime (Call_gjs_string_from_utf8 s) (gjs_string_from_utf8 s) ;;
  match a0 with
  | None =>
      report_error "Failed to copy exception string" ;;
      ret false
  | Some arg0 =>
      c <- runtime (Call_JS_GetClassObject error_kind)
                   (JS_GetClassObject error_kind) ;;
      match c with
      | None => ret false
      | Some constructor =>
          n <- runtime (Call_JS_New constructor [arg0])
                       (JS_New constructor [arg0]) ;;
          match n with
          | None => ret false
          | Some new_exc =>
              named <- set_error_name new_exc error_name ;;
              if named then
                JS_SetPendingException (ObjectValue new_exc) ;;
                ret true
              else ret false
          end
      end
  end.

(** The whole function.  The compartment guard is left when the
    function returns; the rooted locals are construction-free, and
    [global] among them is never read. *)
Definition gjs_throw_valist (error_kind : JSProtoKey)
           (error_name : option string) (format : string)
           (args : list printf_arg) : M heap unit :=
  let s := g_strdup_vprintf format args in
  emit (EvAlloc s) ;;
  (fun cx => emit (EvEnterCompartment (gjs_get_import_global cx)) cx) ;;
  JS_BeginRequest ;;
  pending <- JS_IsExceptionPending ;;
  if pending then
    gjs_debug GJS_DEBUG_CONTEXT "Ignoring second exception: '%s'"
              [ArgString s] ;;
    emit (EvFree s) ;;
    JS_EndRequest ;;
    emit EvLeaveCompartment
  else
    result <- build_and_install error_kind error_name s ;;
    (if negb result then
       report_error (g_strdup_vprintf "Failed to throw exception '%s'"
                                      [ArgString s])
     else ret tt) ;;
    emit (EvFree s) ;;
    JS_EndRequest ;;
    emit EvLeaveCompartment.

(** *** The public entry points *)

Definition gjs_throw (format : string) (args : list printf_arg)
  : M heap unit :=
  gjs_throw_valist JSProto_Error None format args.

(** The condition of [g_return_if_fail] in [gjs_throw_custom]. *)
Definition is_error_kind (kind : JSProtoKey) : bool :=
  match kind with
  | JSProto_Error | JSProto_InternalError | JSProto_EvalError
  | JSProto_RangeError | JSProto_ReferenceError | JSProto_SyntaxError
  | JSProto_TypeError | JSProto_URIError | JSProto_StopIteration => true
  | JSProto_Other _ => false
  end.

Definition kind_check_text : string :=
  "kind == JSProto_Error || kind == JSProto_InternalError || kind == JSProto_EvalError || kind == JSProto_RangeError || kind == JSProto_ReferenceError || kind == JSProto_SyntaxError || kind == JSProto_TypeError || kind == JSProto_URIError || kind == JSProto_StopIteration".

Definition gjs_throw_custom (kind : JSProtoKey) (error_name : option string)
           (format : string) (args : list printf_arg) : M heap unit :=
  if is_error_kind kind then
    gjs_throw_valist kind error_name format args
  else
    emit (EvCritical "gjs_throw_custom" kind_check_text).

Definition gjs_throw_literal (string : string) : M heap unit :=
  gjs_throw "%s" [ArgString string].

(** *** gjs_throw_g_error *)

Definition gjs_throw_g_error (error : option GError) : M heap unit :=
  match error with
  | None => ret tt
  | Some e =>
      JS_BeginRequest ;;
      o <- runtime (Call_gjs_error_from_gerror e true)
                   (gjs_error_from_gerror e true) ;;
      let err := ObjectOrNullValue o in
      emit (EvGErrorFree e) ;;
      (if negb (isNull err) then JS_SetPendingException err else ret tt) ;;
      JS_EndRequest
  end.

(** *** gjs_format_stack_trace *)

Definition gjs_format_stack_trace (saved_frame : option JSObject)
  : M heap (option string) :=
  saved_exc <- AutoSaveExceptionState ;;
  built <- runtime (Call_BuildStackString saved_frame 2)
                   (BuildStackString saved_frame 2) ;;
  stack_utf8 <- match built with
                | Some stack_trace =>
                    runtime (Call_JS_EncodeStringToUTF8 stack_trace)
                            (JS_EncodeStringToUTF8 stack_trace)
                | None => ret None
                end ;;
  AutoSaveExceptionState_restore saved_exc ;;
  match stack_utf8 with
  | None => ret None
  | Some utf8 => ret (g_filename_from_utf8 utf8)
  end.

(** What the runtime has to grant for the optional name to end up on
    [exc], taking the context from [cx3] to [cx4]: nothing when no name
    is given, else the conversion of the name and the property set. *)
Definition name_is_set (exc : JSObject) (error_name : option string)
           (cx3 cx4 : JSContext heap) : Prop :=
  match error_name with
  | None => cx4 = cx3
  | Some name =>
      exists (name_value : JSValue) (cx' : JSContext heap),
        gjs_string_from_utf8 name cx3 = (Some name_value, cx')
        /\ gjs_object_set_property exc GJS_STRING_NAME name_value cx'
           = (Some tt, cx4)
  end.

(** *** A raise through any of the three entry points *)

Definition raise (r : RaiseCall) : M heap unit :=
  match r with
  | Throw format args => gjs_throw format args
  | ThrowCustom kind error_name format args =>
      gjs_throw_custom kind error_name format args
  | ThrowLiteral text => gjs_throw_literal text
  end.

End Bridge.

(** ** gjs_warning_reporter *)

(** Severity flags of an error report, as the engine's header has them. *)
Definition JSREPORT_ERROR : Z := 0.
Definition JSREPORT_WARNING : Z := 1.

(** [JSErrorReport], the fields read here; [flags], [lineno] and
    [errorNumber] are [unsigned]. *)
Record JSErrorReport : Type := mkReport {
  flags : Z;
  filename : string;
  lineno : Z;
  errorNumber : Z;
  report_message : string
}.

Inductive GLogLevelFlags : Type :=
| G_LOG_LEVEL_ERROR
| G_LOG_LEVEL_CRITICAL
| G_LOG_LEVEL_WARNING
| G_LOG_LEVEL_MESSAGE
| G_LOG_LEVEL_INFO
| G_LOG_LEVEL_DEBUG.

Record LogRecord : Type := mkLog {
  log_domain : string;
  log_level : GLogLevelFlags;
  log_text : string
}.

(** How a call of the reporter ends: the process is gone ([g_error],
    [g_assert]) or the call returns, having logged what it logged. *)
Inductive Outcome : Type :=
| Terminated (fatal : string)
| AssertionFailed (expr : string)
| Returned (log : list LogRecord).

Definition terminates (o : Outcome) : Prop :=
  match o with
  | Returned _ => False
  | _ => True
  end.

(** What the reporter takes from the process: the environment lookup of
    [util/misc] and the log domain the build defines. *)
Class Process : Type := {
  gjs_environment_variable_is_set : string -> bool;
  G_LOG_DOMAIN : string
}.

Section Reporter.

Context {P : Process}.

(** The [context] argument is not read. *)
Definition gjs_warning_reporter (report : option JSErrorReport) : Outcome :=
  match report with
  | None => AssertionFailed "report"
  | Some report =>
      if gjs_environment_variable_is_set "GJS_ABORT_ON_OOM"
         && (flags report =? JSREPORT_ERROR)
         && (errorNumber report =? 137)
      then
        Terminated (g_strdup_vprintf "GJS ran out of memory at %s: %i."
                      [ArgString (filename report); ArgInt (lineno report)])
      else
        if negb (Z.land (flags report) JSREPORT_WARNING =? 0) then
          if errorNumber report =? 162 then Returned []
          else
            Returned
              [mkLog G_LOG_DOMAIN G_LOG_LEVEL_MESSAGE
                 (g_strdup_vprintf "JS %s: [%s %d]: %s"
                    [ArgString "WARNING"; ArgString (filename report);
                     ArgInt (lineno report);
                     ArgString (report_message report)])]
        else
          Returned
            [mkLog G_LOG_DOMAIN G_LOG_LEVEL_WARNING
               (g_strdup_vprintf "JS %s: [%s %d]: %s"
                  [ArgString "REPORTED"; ArgString (filename report);
                   ArgInt (lineno report);
                   ArgString (report_message report)])]
  end.

End Reporter.

(** ** Reading a record of calls *)

Definition freed_buffers (t : list Event) : list string :=
  flat_map (fun e => match e with EvFree s => [s] | _ => [] end) t.

Definition freed_errors (t : list Event) : list GError :=
  flat_map (fun e => match e with EvGErrorFree g => [g] | _ => [] end) t.

Definition allocations (t : list Event) : list string :=
  flat_map (fun e => match e with EvAlloc s => [s] | _ => [] end) t.

Definition runtime_calls (t : list Event) : list RuntimeCall :=
  flat_map (fun e => match e with EvRuntime c => [c] | _ => [] end) t.

(** Calls made between entry and cleanup: runtime entry points and
    error reports, neither an allocation nor a release. *)
Definition is_inner (e : Event) : bool :=
  match e with
  | EvRuntime _ | EvReportError _ => true
  | _ => false
  end.

Definition is_begin (e : Event) : bool :=
  match e with EvBeginRequest => true | _ => false end.

Definition is_end (e : Event) : bool :=
  match e with EvEndRequest => true | _ => false end.

Definition requests_entered (t : list Event) : nat :=
  length (filter is_begin t).

Definition requests_exited (t : list Event) : nat :=
  length (filter is_end t).

(** ** A sample runtime

    A small heap of objects addressed by position, enough to run the
    bridge on concrete inputs. *)

Inductive SimObject : Type :=
| SimGlobal
| SimConstructor (key : JSProtoKey)
| SimError (key : JSProtoKey) (msg : JSValue) (name : option JSValue)
| SimGError (e : GError)
| SimSavedFrame (text : string).

Definition SimHeap := list SimObject.

Definition sim_alloc (o : SimObject) (cx : JSContext SimHeap)
  : option JSObject * JSContext SimHeap :=
  (Some (length (cx_heap cx)),
   mkContext (cx_heap cx ++ [o])%list (cx_pending cx)).

Fixpoint sim_update (h : SimHeap) (addr : nat) (o : SimObject) : SimHeap :=
  match h, addr with
  | [], _ => []
  | _ :: h', O => o :: h'
  | x :: h', S n => x :: sim_update h' n o
  end.

Definition is_ascii (s : string) : bool :=
  forallb (fun c => Nat.ltb (nat_of_ascii c) 128) (list_ascii_of_string s).

#[local] Instance sample_runtime : Runtime SimHeap := {
  gjs_get_import_global := fun _ => O;
  gjs_string_from_utf8 := fun s cx =>
    if is_ascii s then (Some (StringValue s), cx) else (None, cx);
  JS_GetClassObject := fun key cx => sim_alloc (SimConstructor key) cx;
  JS_New := fun c args cx =>
    match nth_error (cx_heap cx) c with
    | Some (SimConstructor key) =>
        sim_alloc (SimError key (hd UndefinedValue args) None) cx
    | _ => (None, cx)
    end;
  gjs_object_set_property := fun o _ v cx =>
    match nth_error (cx_heap cx) o with
    | Some (SimError key msg _) =>
        (Some tt,
         mkContext (sim_update (cx_heap cx) o (SimError key msg (Some v)))
                   (cx_pending cx))
    | _ => (None, cx)
    end;
  JS_ReportErrorUTF8 := fun _ cx => cx;
  gjs_error_from_gerror := fun e _ cx => sim_alloc (SimGError e) cx;
  BuildStackString := fun frame _ cx =>
    match frame with
    | None => (Some EmptyString, cx)
    | Some a =>
        match nth_error (cx_heap cx) a with
        | Some (SimSavedFrame text) => (Some text, cx)
        | _ => (None, mkContext (cx_heap cx) (Some UndefinedValue))
        end
    end;
  JS_EncodeStringToUTF8 := fun s cx => (Some s, cx);
  g_filename_from_utf8 := fun s => if is_ascii s then Some s else None
}.

#[local] Instance sample_process : Process := {
  gjs_environment_variable_is_set := fun name => String.eqb name "GJS_ABORT_ON_OOM";
  G_LOG_DOMAIN := "Gjs"
}.

Definition sample_context : JSContext SimHeap := mkContext [SimGlobal] None.

(** The object the pending slot of [cx] points at. *)
Definition pending_object (cx : JSContext SimHeap) : option SimObject :=
  match cx_pending cx with
  | Some (ObjectValue a) => nth_error (cx_heap cx) a
  | _ => None
  end.

(** ** Sequences of calls into the bridge

    What a caller in the binding layer does with this file: raise, convert
    a [GError], format a stack trace, one call after the other on the same
    context. *)

Inductive BridgeCall : Type :=
| CallRaise (r : RaiseCall)
| CallThrowGError (error : option GError)
| CallFormatStackTrace (saved_frame : option JSObject).

Section Callers.

Context {heap : Type} {R : Runtime heap}.

Definition perform (c : BridgeCall) : M heap unit :=
  match c with
  | CallRaise r => raise r
  | CallThrowGError error => gjs_throw_g_error error
  | CallFormatStackTrace saved_frame =>
      gjs_format_stack_trace saved_frame ;; ret tt
  end.

Fixpoint perform_all (cs : list BridgeCall) : M heap unit :=
  match cs with
  | [] => ret tt
  | c :: cs' => perform c ;; perform_all cs'
  end.

End Callers.

Definition is_throw_g_error (c : BridgeCall) : bool :=
  match c with
  | CallThrowGError _ => true
  | _ => false
  end.

(** The records handed over for conversion, in order. *)
Definition errors_passed (cs : list BridgeCall) : list GError :=
  flat_map (fun c => match c with
                     | CallThrowGError (Some e) => [e]
                     | _ => []
                     end) cs.

Definition is_enter (e : Event) : bool :=
  match e with EvEnterCompartment _ => true | _ => false end.

Definition is_leave (e : Event) : bool :=
  match e with EvLeaveCompartment => true | _ => false end.

Definition compartments_entered (t : list Event) : nat :=
  length (filter is_enter t).

Definition compartments_left (t : list Event) : nat :=
  length (filter is_leave t).

(** Resource bookkeeping of a record of calls: requests, compartments
    and formatted buffers all closed again. *)
Definition balanced (t : list Event) : Prop :=
  requests_entered t = requests_exited t
  /\ compartments_entered t = compartments_left t
  /\ allocations t = freed_buffers t.

(** A runtime out of memory: every fallible call fails and leaves the
    context alone. *)
Definition exhausted_runtime : Runtime unit := {|
  gjs_get_import_global := fun _ => O;
  gjs_string_from_utf8 := fun _ cx => (None, cx);
  JS_GetClassObject := fun _ cx => (None, cx);
  JS_New := fun _ _ cx => (None, cx);
  gjs_object_set_property := fun _ _ _ cx => (None, cx);
  JS_ReportErrorUTF8 := fun _ cx => cx;
  gjs_error_from_gerror := fun _ _ cx => (None, cx);
  BuildStackString := fun _ _ cx => (None, cx);
  JS_EncodeStringToUTF8 := fun _ cx => (None, cx);
  g_filename_from_utf8 := fun _ => None
|}.

(** A byte string that is not UTF-8, and a sample context with an
    exception already pending. *)
Definition invalid_utf8 : string := String (ascii_of_nat 200) EmptyString.

Definition occupied_context : JSContext SimHeap :=
  mkContext [SimGlobal] (Some (StringValue "old")).

(** * Properties *)

(** ** Formatting *)

Lemma format_literal (text : string) :
  g_strdup_vprintf "%s" [ArgString text] = text.
Proof.
  cbn. induction text as [|c rest IH]; cbn; [reflexivity | now rewrite IH].
Qed.

Lemma format_oom (file : string) (line : Z) :
  g_strdup_vprintf "GJS ran out of memory at %s: %i."
    [ArgString file; ArgInt line]
  = "GJS ran out of memory at " ++ file ++ ": " ++ decimal (as_int line) ++ ".".
Proof. reflexivity. Qed.

Lemma format_report (label file : string) (line : Z) (msg : string) :
  g_strdup_vprintf "JS %s: [%s %d]: %s"
    [ArgString label; ArgString file; ArgInt line; ArgString msg]
  = "JS " ++ label ++ ": [" ++ file ++ " " ++ decimal (as_int line)
      ++ "]: " ++ msg.
Proof.
  cbn. do 3 f_equal.
  induction label as [|c l IH]; cbn; [|now rewrite IH].
  do 3 f_equal.
  induction file as [|c f IH]; cbn; [|now rewrite IH].
  f_equal.
  induction (decimal (as_int line)) as [|c d IH]; cbn; [|now rewrite IH].
  do 3 f_equal.
  induction msg as [|c m IH]; cbn; [reflexivity | now rewrite IH].
Qed.

Lemma format_suppressed (s : string) :
  g_strdup_vprintf "Ignoring second exception: '%s'" [ArgString s]
  = "Ignoring second exception: '" ++ s ++ "'".
Proof. reflexivity. Qed.

(** ** The warning reporter *)

Section ReporterProperties.

Context {P : Process}.

Lemma warning_flag_not_error (f : Z) :
  Z.land f JSREPORT_WARNING <> 0 -> (f =? JSREPORT_ERROR) = false.
Proof.
  intros Hw. apply Z.eqb_neq. intros ->. apply Hw. reflexivity.
Qed.

Lemma reporter_warning_branch (report : JSErrorReport) :
  Z.land (flags report) JSREPORT_WARNING <> 0 ->
  gjs_warning_reporter (Some report) =
    if errorNumber report =? 162 then Returned []
    else Returned
           [mkLog G_LOG_DOMAIN G_LOG_LEVEL_MESSAGE
              (g_strdup_vprintf "JS %s: [%s %d]: %s"
                 [ArgString "WARNING"; ArgString (filename report);
                  ArgInt (lineno report);
                  ArgString (report_message report)])].
Proof.
  intros Hw. unfold gjs_warning_reporter.
  rewrite (warning_flag_not_error _ Hw), andb_false_r, andb_false_l.
  apply Z.eqb_neq in Hw. now rewrite Hw.
Qed.

(** C3: for a report, the reporter ends the process exactly when the
    GJS_ABORT_ON_OOM toggle is set, the flags equal the hard-error value
    and the error number is 137, the out-of-memory code; it then ends it
    through the fatal message naming the report's file and line, and
    no log record of the normal path is produced. *)
Theorem reporter_terminates_iff (report : JSErrorReport) :
  (terminates (gjs_warning_reporter (Some report)) <->
     gjs_environment_variable_is_set "GJS_ABORT_ON_OOM" = true
     /\ flags report = JSREPORT_ERROR
     /\ errorNumber report = 137)
  /\ (terminates (gjs_warning_reporter (Some report)) ->
      gjs_warning_reporter (Some report) =
        Terminated ("GJS ran out of memory at " ++ filename report ++ ": "
                      ++ decimal (as_int (lineno report)) ++ ".")).
Proof.
  unfold gjs_warning_reporter.
  destruct (gjs_environment_variable_is_set "GJS_ABORT_ON_OOM");
    destruct (Z.eqb_spec (flags report) JSREPORT_ERROR) as [Hf|Hf];
    destruct (Z.eqb_spec (errorNumber report) 137) as [Hn|Hn];
    cbn [andb];
    try (rewrite format_oom; split;
         [split; [intros _; repeat split; assumption | intros _; exact I]
         | intros _; reflexivity]);
    (split; [split; [intros Ht | intros (Ht & Hf' & Hn')] | intros Ht]);
    try congruence;
    repeat match goal with
           | H : terminates (if ?c then _ else _) |- _ => destruct c
           | H : terminates (Returned _) |- _ => destruct H
           end.
Qed.

(** C6: a report that carries the warning flag and whose error number
    is 162, the undefined-property code, makes the reporter return with
    no log record at all, whatever the toggle. *)
Theorem reporter_drops_undefined_prop (report : JSErrorReport) :
  Z.land (flags report) JSREPORT_WARNING <> 0 ->
  errorNumber report = 162 ->
  gjs_warning_reporter (Some report) = Returned [].
Proof.
  intros Hw Hn. rewrite (reporter_warning_branch _ Hw), Hn. reflexivity.
Qed.

(** C10: a report with the out-of-memory number 137 whose flags include
    the warning bit never ends the process, toggle or not; it is logged
    as an ordinary WARNING at message level. *)
Theorem reporter_oom_warning_is_logged (report : JSErrorReport) :
  errorNumber report = 137 ->
  Z.land (flags report) JSREPORT_WARNING <> 0 ->
  ~ terminates (gjs_warning_reporter (Some report))
  /\ gjs_warning_reporter (Some report) =
       Returned
         [mkLog G_LOG_DOMAIN G_LOG_LEVEL_MESSAGE
            ("JS WARNING: [" ++ filename report ++ " "
               ++ decimal (as_int (lineno report)) ++ "]: "
               ++ report_message report)].
Proof.
  intros Hn Hw.
  assert (E : gjs_warning_reporter (Some report) =
              Returned
                [mkLog G_LOG_DOMAIN G_LOG_LEVEL_MESSAGE
                   ("JS WARNING: [" ++ filename report ++ " "
                      ++ decimal (as_int (lineno report)) ++ "]: "
                      ++ report_message report)]).
  { rewrite (reporter_warning_branch _ Hw), Hn, format_report.
    reflexivity. }
  split; [rewrite E; intros [] | exact E].
Qed.

End ReporterProperties.

(** ** The bridge, over any runtime *)

Lemma is_error_kind_spec (kind : JSProtoKey) :
  is_error_kind kind = true <-> In kind ErrorKind.
Proof.
  destruct kind; cbn; split; intros H; try reflexivity; try discriminate;
    try tauto.
  repeat (destruct H as [H|H]; [discriminate H|]). destruct H.
Qed.

Lemma inner_events_release_nothing (t : list Event) :
  forallb is_inner t = true ->
  allocations t = [] /\ freed_buffers t = []
  /\ requests_entered t = O /\ requests_exited t = O.
Proof.
  unfold requests_entered, requests_exited.
  induction t as [|e t IH]; cbn; [intros _; repeat split|].
  intros H. apply andb_true_iff in H as [He Ht].
  destruct (IH Ht) as (Ha & Hf & Hb & Hx).
  destruct e; cbn in He; try discriminate; cbn; repeat split; assumption.
Qed.

Ltac unfold_bridge :=
  unfold gjs_throw_literal, gjs_throw, gjs_throw_valist, build_and_install,
    set_error_name, report_error, gjs_debug, JS_BeginRequest, JS_EndRequest,
    JS_IsExceptionPending, JS_SetPendingException, runtime, emit, bind, ret.

(** Case analysis on the outcome of the next runtime call in the goal. *)
Ltac next_call :=
  match goal with
  | |- context [fst (?f ?cx)] =>
      let r := fresh "r" in
      let cx' := fresh "cx" in
      destruct (f cx) as [[r|] cx']; cbn
  end.

Section BridgeProperties.

Context {heap : Type} {R : Runtime heap}.

(** The precedence check of [gjs_throw_valist]: with an exception
    pending the call only logs, releases and returns. *)
Lemma throw_valist_suppressed (kind : JSProtoKey) (name : option string)
      (format : string) (args : list printf_arg) (cx : JSContext heap) :
  cx_pending cx <> None ->
  gjs_throw_valist kind name format args cx =
    mkResult tt cx
      [EvAlloc (g_strdup_vprintf format args);
       EvEnterCompartment (gjs_get_import_global cx);
       EvBeginRequest;
       EvDebug GJS_DEBUG_CONTEXT
         ("Ignoring second exception: '" ++ g_strdup_vprintf format args
            ++ "'");
       EvFree (g_strdup_vprintf format args);
       EvEndRequest;
       EvLeaveCompartment].
Proof.
  intros Hp. unfold_bridge. cbn.
  destruct (cx_pending cx); [reflexivity | contradiction].
Qed.

(** The success path of [gjs_throw_valist] without a custom name. *)
Lemma throw_valist_installs (kind : JSProtoKey) (format : string)
      (args : list printf_arg) (cx cx1 cx2 cx3 : JSContext heap)
      (arg0 : JSValue) (ctor exc : JSObject) :
  cx_pending cx = None ->
  gjs_string_from_utf8 (g_strdup_vprintf format args) cx = (Some arg0, cx1) ->
  JS_GetClassObject kind cx1 = (Some ctor, cx2) ->
  JS_New ctor [arg0] cx2 = (Some exc, cx3) ->
  gjs_throw_valist kind None format args cx =
    mkResult tt (mkContext (cx_heap cx3) (Some (ObjectValue exc)))
      [EvAlloc (g_strdup_vprintf format args);
       EvEnterCompartment (gjs_get_import_global cx);
       EvBeginRequest;
       EvRuntime (Call_gjs_string_from_utf8 (g_strdup_vprintf format args));
       EvRuntime (Call_JS_GetClassObject kind);
       EvRuntime (Call_JS_New ctor [arg0]);
       EvFree (g_strdup_vprintf format args);
       EvEndRequest;
       EvLeaveCompartment].
Proof.
  intros Hp H0 H1 H2. unfold_bridge. cbn.
  rewrite Hp. cbn. rewrite H0. cbn. rewrite H1. cbn. rewrite H2. cbn.
  reflexivity.
Qed.

(** C7: [gjs_throw_literal] hands its text to the engine untouched.
    With no exception pending and a runtime that builds the object, the
    buffer it formats is the text itself, the string converted for the
    constructor is the text itself, the class asked for is Error, and
    the object built from exactly that argument is what ends up
    pending. *)
Theorem throw_literal_verbatim
        (text : string) (cx cx1 cx2 cx3 : JSContext heap)
        (arg0 : JSValue) (ctor exc : JSObject) :
  cx_pending cx = None ->
  gjs_string_from_utf8 text cx = (Some arg0, cx1) ->
  JS_GetClassObject JSProto_Error cx1 = (Some ctor, cx2) ->
  JS_New ctor [arg0] cx2 = (Some exc, cx3) ->
  cx_pending (after (gjs_throw_literal text cx)) = Some (ObjectValue exc)
  /\ allocations (events (gjs_throw_literal text cx)) = [text]
  /\ runtime_calls (events (gjs_throw_literal text cx)) =
       [Call_gjs_string_from_utf8 text;
        Call_JS_GetClassObject JSProto_Error;
        Call_JS_New ctor [arg0]].
Proof.
  intros Hp H0 H1 H2. unfold gjs_throw_literal, gjs_throw.
  rewrite <- (format_literal text) in H0.
  rewrite (throw_valist_installs _ _ _ _ _ _ _ _ _ _ Hp H0 H1 H2).
  rewrite format_literal. cbn. repeat split; reflexivity.
Qed.

(** Whenever the construction reports success, an object is pending. *)
Lemma build_and_install_true (kind : JSProtoKey) (name : option string)
      (s : string) (cx : JSContext heap) :
  value (build_and_install kind name s cx) = true ->
  exists exc : JSObject,
    cx_pending (after (build_and_install kind name s cx))
    = Some (ObjectValue exc).
Proof.
  unfold build_and_install, report_error, JS_SetPendingException, runtime,
    ret, bind.
  cbn -[set_error_name].
  destruct (gjs_string_from_utf8 s cx) as [[arg0|] cx1];
    cbn -[set_error_name]; [|discriminate].
  destruct (JS_GetClassObject kind cx1) as [[ctor|] cx2];
    cbn -[set_error_name]; [|discriminate].
  destruct (JS_New ctor [arg0] cx2) as [[exc|] cx3];
    cbn -[set_error_name]; [|discriminate].
  destruct (set_error_name exc name cx3) as [[|] cx4 t]; cbn;
    [|discriminate].
  intros _. exists exc. reflexivity.
Qed.

(** A raise that starts with an occupied slot, or whose construction
    succeeds, ends with an exception pending. *)
Lemma throw_valist_leaves_pending (kind : JSProtoKey) (name : option string)
      (format : string) (args : list printf_arg) (cx : JSContext heap) :
  (cx_pending cx = None ->
   value (build_and_install kind name (g_strdup_vprintf format args) cx)
   = true) ->
  cx_pending (after (gjs_throw_valist kind name format args cx)) <> None.
Proof.
  intros Hok. destruct (cx_pending cx) as [v|] eqn:Hp.
  - rewrite throw_valist_suppressed by congruence. cbn. congruence.
  - specialize (Hok eq_refl).
    destruct (build_and_install_true _ _ _ _ Hok) as [exc Hexc].
    unfold gjs_throw_valist, JS_BeginRequest, JS_EndRequest,
      JS_IsExceptionPending, report_error, emit, ret, bind.
    cbn -[build_and_install]. rewrite Hp.
    destruct (build_and_install kind name (g_strdup_vprintf format args) cx)
      as [b cx' t]; cbn in *.
    subst b. cbn. congruence.
Qed.

(** *** Resources of the engine *)

Lemma bind_events {A B : Type} (m : M heap A) (f : A -> M heap B)
      (cx : JSContext heap) :
  events (bind m f cx)
  = (events (m cx) ++ events (f (value (m cx)) (after (m cx))))%list.
Proof.
  unfold bind. destruct (m cx) as [a cx1 t1]. cbn.
  destruct (f a cx1). reflexivity.
Qed.

Lemma set_error_name_inner (exc : JSObject) (name : option string)
      (cx : JSContext heap) :
  forallb is_inner (events (set_error_name exc name cx)) = true.
Proof.
  destruct name as [name|]; unfold_bridge; cbn; [|reflexivity].
  next_call; [next_call|]; reflexivity.
Qed.

Lemma build_and_install_inner (kind : JSProtoKey) (name : option string)
      (s : string) (cx : JSContext heap) :
  forallb is_inner (events (build_and_install kind name s cx)) = true.
Proof.
  unfold build_and_install, report_error, JS_SetPendingException, runtime,
    ret, bind.
  cbn -[set_error_name].
  destruct (gjs_string_from_utf8 s cx) as [[arg0|] cx1];
    cbn -[set_error_name]; [|reflexivity].
  destruct (JS_GetClassObject kind cx1) as [[ctor|] cx2];
    cbn -[set_error_name]; [|reflexivity].
  destruct (JS_New ctor [arg0] cx2) as [[exc|] cx3];
    cbn -[set_error_name]; [|reflexivity].
  pose proof (set_error_name_inner exc name cx3) as Hn.
  destruct (set_error_name exc name cx3) as [[|] cx4 t]; cbn in *;
    rewrite ?app_nil_r; exact Hn.
Qed.

Lemma throw_valist_shape (kind : JSProtoKey) (name : option string)
      (format : string) (args : list printf_arg) (cx : JSContext heap) :
  exists body : list Event,
    events (gjs_throw_valist kind name format args cx) =
      ([EvAlloc (g_strdup_vprintf format args);
        EvEnterCompartment (gjs_get_import_global cx);
        EvBeginRequest]
         ++ body
         ++ [EvFree (g_strdup_vprintf format args);
             EvEndRequest;
             EvLeaveCompartment])%list
    /\ (forallb is_inner body = true
        \/ body = [EvDebug GJS_DEBUG_CONTEXT
                     ("Ignoring second exception: '"
                        ++ g_strdup_vprintf format args ++ "'")]).
Proof.
  destruct (cx_pending cx) as [v|] eqn:Hp.
  - exists [EvDebug GJS_DEBUG_CONTEXT
              ("Ignoring second exception: '"
                 ++ g_strdup_vprintf format args ++ "'")].
    rewrite throw_valist_suppressed by congruence.
    split; [reflexivity | right; reflexivity].
  - pose proof (build_and_install_inner kind name
                  (g_strdup_vprintf format args) cx) as Hb.
    unfold gjs_throw_valist, JS_BeginRequest, JS_EndRequest,
      JS_IsExceptionPending, report_error, emit, ret, bind.
    cbn -[build_and_install]. rewrite Hp.
    destruct (build_and_install kind name (g_strdup_vprintf format args) cx)
      as [[|] cx' t]; cbn in *.
    + exists t. split; [reflexivity | left; exact Hb].
    + eexists (t ++ [_])%list. rewrite <- app_assoc. cbn.
      split; [reflexivity | left].
      rewrite forallb_app, Hb. reflexivity.
Qed.

(** C8: on every path of [gjs_throw_valist], whichever way the
    precedence check and the runtime calls turn out, the formatted
    buffer is allocated once and freed once, the request is entered
    once and left once, and the release and the exit are the last
    things done before the compartment is left on return. *)
Theorem throw_valist_releases_once
        (kind : JSProtoKey) (name : option string) (format : string)
        (args : list printf_arg) (cx : JSContext heap) :
  allocations (events (gjs_throw_valist kind name format args cx))
    = [g_strdup_vprintf format args]
  /\ freed_buffers (events (gjs_throw_valist kind name format args cx))
     = [g_strdup_vprintf format args]
  /\ requests_entered (events (gjs_throw_valist kind name format args cx))
     = 1%nat
  /\ requests_exited (events (gjs_throw_valist kind name format args cx))
     = 1%nat
  /\ exists work : list Event,
      events (gjs_throw_valist kind name format args cx) =
        (work ++ [EvFree (g_strdup_vprintf format args);
                  EvEndRequest;
                  EvLeaveCompartment])%list.
Proof.
  destruct (throw_valist_shape kind name format args cx)
    as (body & -> & Hbody).
  assert (Hq : allocations body = [] /\ freed_buffers body = []
               /\ requests_entered body = O /\ requests_exited body = O).
  { destruct Hbody as [Hin | ->].
    - now apply inner_events_release_nothing.
    - repeat split. }
  destruct Hq as (Ha & Hf & Hb & Hx).
  unfold allocations, freed_buffers, requests_entered, requests_exited in *.
  rewrite !flat_map_app, !filter_app, !length_app.
  rewrite Ha, Hf, Hb, Hx. cbn.
  repeat split.
  eexists (_ :: _ :: _ :: body)%list. reflexivity.
Qed.

(** C9: [gjs_throw_custom] with a class outside the closed set stops at
    its entry check: it logs the failed precondition as a critical
    message and returns, having formatted and allocated nothing, called
    no runtime entry point and left the context as it was. *)
Theorem throw_custom_rejects_foreign_kind
        (kind : JSProtoKey) (name : option string) (format : string)
        (args : list printf_arg) (cx : JSContext heap) :
  ~ In kind ErrorKind ->
  after (gjs_throw_custom kind name format args cx) = cx
  /\ events (gjs_throw_custom kind name format args cx)
     = [EvCritical "gjs_throw_custom" kind_check_text]
  /\ allocations (events (gjs_throw_custom kind name format args cx)) = []
  /\ runtime_calls (events (gjs_throw_custom kind name format args cx)) = []
  /\ requests_entered (events (gjs_throw_custom kind name format args cx))
     = O.
Proof.
  intros Hk. unfold gjs_throw_custom.
  destruct (is_error_kind kind) eqn:E.
  - apply is_error_kind_spec in E. contradiction.
  - repeat split.
Qed.

(** *** The GError converter *)

(** C2: when the conversion of the record yields an object, that
    object is what is pending after [gjs_throw_g_error], whatever was
    pending before: the slot is written without looking at it. *)
Theorem throw_g_error_overwrites
        (error : GError) (h : heap) (prior : option JSValue)
        (exc : JSObject) (cx1 : JSContext heap) :
  gjs_error_from_gerror error true (mkContext h prior) = (Some exc, cx1) ->
  cx_pending (after (gjs_throw_g_error (Some error) (mkContext h prior)))
    = Some (ObjectValue exc)
  /\ cx_heap (after (gjs_throw_g_error (Some error) (mkContext h prior)))
     = cx_heap cx1.
Proof.
  intros H. unfold gjs_throw_g_error, JS_BeginRequest, JS_EndRequest,
    JS_SetPendingException, runtime, emit, bind, ret. cbn.
  rewrite H. cbn. split; reflexivity.
Qed.

(** C5: [gjs_throw_g_error] on a record frees that record once, after
    the conversion and before the request is left, whether or not an
    exception was pending and whether or not the conversion yields an
    object; on a null record it does nothing at all. *)
Theorem throw_g_error_frees_once (error : GError) (cx : JSContext heap) :
  freed_errors (events (gjs_throw_g_error (Some error) cx)) = [error]
  /\ events (gjs_throw_g_error (Some error) cx) =
       [EvBeginRequest;
        EvRuntime (Call_gjs_error_from_gerror error true);
        EvGErrorFree error;
        EvEndRequest]
  /\ gjs_throw_g_error None cx = mkResult tt cx [].
Proof.
  unfold gjs_throw_g_error, JS_BeginRequest, JS_EndRequest,
    JS_SetPendingException, runtime, emit, bind, ret. cbn.
  destruct (gjs_error_from_gerror error true cx) as [[exc|] cx1]; cbn;
    repeat split.
Qed.

(** *** The stack-trace formatter *)

(** C4: [gjs_format_stack_trace] leaves the pending slot as it found
    it, whatever the runtime calls inside did to it and whether they
    succeeded; a failure of either call shows only as an absent result,
    and otherwise the result is what the filename conversion gives. *)
Theorem format_stack_trace_keeps_pending
        (saved_frame : option JSObject) (cx : JSContext heap) :
  cx_pending (after (gjs_format_stack_trace saved_frame cx)) = cx_pending cx
  /\ (fst (BuildStackString saved_frame 2 (mkContext (cx_heap cx) None))
        = None ->
      value (gjs_format_stack_trace saved_frame cx) = None)
  /\ (forall (stack : JSString) (cx1 : JSContext heap),
        BuildStackString saved_frame 2 (mkContext (cx_heap cx) None)
          = (Some stack, cx1) ->
        fst (JS_EncodeStringToUTF8 stack cx1) = None ->
        value (gjs_format_stack_trace saved_frame cx) = None)
  /\ (forall (stack : JSString) (cx1 : JSContext heap) (utf8 : string)
             (cx2 : JSContext heap),
        BuildStackString saved_frame 2 (mkContext (cx_heap cx) None)
          = (Some stack, cx1) ->
        JS_EncodeStringToUTF8 stack cx1 = (Some utf8, cx2) ->
        value (gjs_format_stack_trace saved_frame cx)
          = g_filename_from_utf8 utf8).
Proof.
  unfold gjs_format_stack_trace, AutoSaveExceptionState,
    AutoSaveExceptionState_restore, runtime, bind, ret. cbn.
  destruct (BuildStackString saved_frame 2 (mkContext (cx_heap cx) None))
    as [[stack|] cx1]; cbn.
  - destruct (JS_EncodeStringToUTF8 stack cx1) as [[utf8|] cx2] eqn:E; cbn.
    + split; [reflexivity|]. split; [discriminate|].
      split; intros st c1; [|intros u c2]; intros H; inversion H; subst.
      * rewrite E. discriminate.
      * rewrite E. intros H'. inversion H'; subst. reflexivity.
    + split; [reflexivity|]. split; [discriminate|].
      split; intros st c1; [|intros u c2]; intros H; inversion H; subst.
      * reflexivity.
      * rewrite E. discriminate.
  - split; [reflexivity|]. split; [reflexivity|].
    split; intros st c1; [|intros u c2]; discriminate.
Qed.

End BridgeProperties.

(** ** The bridge on the sample runtime *)

Example throw_custom_sets_name_and_message :
  pending_object
    (after (gjs_throw_custom JSProto_TypeError (Some "MyError") "bad arg %d"
              [ArgInt 3] sample_context))
  = Some (SimError JSProto_TypeError (StringValue "bad arg 3")
            (Some (StringValue "MyError"))).
Proof. reflexivity. Qed.

Example first_raise_stays_pending :
  pending_object
    (after (raise (ThrowLiteral "second")
              (after (raise (Throw "first %d" [ArgInt 1]) sample_context))))
  = Some (SimError JSProto_Error (StringValue "first 1") None).
Proof. reflexivity. Qed.

Example cleared_slot_takes_second_raise :
  pending_object
    (after (raise (ThrowLiteral "second")
              (after (JS_ClearPendingException
                        (after (raise (Throw "first %d" [ArgInt 1])
                                      sample_context))))))
  = Some (SimError JSProto_Error (StringValue "second") None).
Proof. reflexivity. Qed.

Example literal_percent_is_kept :
  pending_object (after (gjs_throw_literal "100% done" sample_context))
  = Some (SimError JSProto_Error (StringValue "100% done") None).
Proof. reflexivity. Qed.

Example failed_stack_trace_restores_pending :
  gjs_format_stack_trace (Some 5%nat)
    (mkContext [SimGlobal] (Some (StringValue "old")))
  = mkResult None (mkContext [SimGlobal] (Some (StringValue "old")))
      [EvRuntime (Call_BuildStackString (Some 5%nat) 2)].
Proof. reflexivity. Qed.

Example oom_error_terminates :
  gjs_warning_reporter (Some (mkReport 0 "a.js" 12 137 "out of memory"))
  = Terminated "GJS ran out of memory at a.js: 12.".
Proof. reflexivity. Qed.

Lemma throw_literal_verbatim_witness :
  cx_pending sample_context = None
  /\ gjs_string_from_utf8 "100% done" sample_context
     = (Some (StringValue "100% done"), sample_context)
  /\ JS_GetClassObject JSProto_Error sample_context
     = (Some 1%nat, mkContext [SimGlobal; SimConstructor JSProto_Error] None)
  /\ JS_New 1%nat [StringValue "100% done"]
       (mkContext [SimGlobal; SimConstructor JSProto_Error] None)
     = (Some 2%nat,
        mkContext [SimGlobal; SimConstructor JSProto_Error;
                   SimError JSProto_Error (StringValue "100% done") None]
                  None)
  /\ cx_pending (after (gjs_throw_literal "100% done" sample_context))
     = Some (ObjectValue 2%nat)
  /\ allocations (events (gjs_throw_literal "100% done" sample_context))
     = ["100% done"]
  /\ runtime_calls (events (gjs_throw_literal "100% done" sample_context))
     = [Call_gjs_string_from_utf8 "100% done";
        Call_JS_GetClassObject JSProto_Error;
        Call_JS_New 1%nat [StringValue "100% done"]].
Proof.
  do 4 (split; [reflexivity |]).
  exact (throw_literal_verbatim "100% done" sample_context sample_context
           (mkContext [SimGlobal; SimConstructor JSProto_Error] None)
           (mkContext [SimGlobal; SimConstructor JSProto_Error;
                       SimError JSProto_Error (StringValue "100% done") None]
                      None)
           (StringValue "100% done") 1%nat 2%nat
           eq_refl eq_refl eq_refl eq_refl).
Defined.

Lemma throw_custom_rejects_foreign_kind_witness :
  ~ In (JSProto_Other 3) ErrorKind
  /\ after (gjs_throw_custom (JSProto_Other 3) (Some "MyError") "bad arg %d"
              [ArgInt 3] sample_context) = sample_context
  /\ events (gjs_throw_custom (JSProto_Other 3) (Some "MyError") "bad arg %d"
               [ArgInt 3] sample_context)
     = [EvCritical "gjs_throw_custom" kind_check_text]
  /\ allocations
       (events (gjs_throw_custom (JSProto_Other 3) (Some "MyError")
                  "bad arg %d" [ArgInt 3] sample_context)) = []
  /\ runtime_calls
       (events (gjs_throw_custom (JSProto_Other 3) (Some "MyError")
                  "bad arg %d" [ArgInt 3] sample_context)) = []
  /\ requests_entered
       (events (gjs_throw_custom (JSProto_Other 3) (Some "MyError")
                  "bad arg %d" [ArgInt 3] sample_context)) = O.
Proof.
  assert (Hk : ~ In (JSProto_Other 3) ErrorKind).
  { simpl. intros H.
    repeat (destruct H as [H|H]; [discriminate H|]). exact H. }
  split; [exact Hk |].
  exact (throw_custom_rejects_foreign_kind (JSProto_Other 3) (Some "MyError")
           "bad arg %d" [ArgInt 3] sample_context Hk).
Defined.

Lemma throw_g_error_overwrites_witness :
  gjs_error_from_gerror (mkGError 5 2 "No such file") true
    (mkContext [SimGlobal] (Some (StringValue "old")))
  = (Some 1%nat,
     mkContext [SimGlobal; SimGError (mkGError 5 2 "No such file")]
               (Some (StringValue "old")))
  /\ cx_pending
       (after (gjs_throw_g_error (Some (mkGError 5 2 "No such file"))
                 (mkContext [SimGlobal] (Some (StringValue "old")))))
     = Some (ObjectValue 1%nat)
  /\ cx_heap
       (after (gjs_throw_g_error (Some (mkGError 5 2 "No such file"))
                 (mkContext [SimGlobal] (Some (StringValue "old")))))
     = cx_heap (mkContext [SimGlobal; SimGError (mkGError 5 2 "No such file")]
                          (Some (StringValue "old"))).
Proof.
  split; [reflexivity |].
  exact (throw_g_error_overwrites (mkGError 5 2 "No such file") [SimGlobal]
           (Some (StringValue "old")) 1%nat
           (mkContext [SimGlobal; SimGError (mkGError 5 2 "No such file")]
                      (Some (StringValue "old")))
           eq_refl).
Defined.

Lemma reporter_drops_undefined_prop_witness :
  Z.land (flags (mkReport 1 "a.js" 3 162 "reference to undefined property"))
         JSREPORT_WARNING <> 0
  /\ errorNumber (mkReport 1 "a.js" 3 162 "reference to undefined property")
     = 162
  /\ gjs_warning_reporter
       (Some (mkReport 1 "a.js" 3 162 "reference to undefined property"))
     = Returned [].
Proof.
  assert (Hw : Z.land
                 (flags (mkReport 1 "a.js" 3 162
                           "reference to undefined property"))
                 JSREPORT_WARNING <> 0)
    by (vm_compute; discriminate).
  split; [exact Hw | split; [reflexivity |]].
  exact (reporter_drops_undefined_prop
           (mkReport 1 "a.js" 3 162 "reference to undefined property")
           Hw eq_refl).
Defined.

Lemma reporter_oom_warning_is_logged_witness :
  errorNumber (mkReport 1 "a.js" 12 137 "out of memory") = 137
  /\ Z.land (flags (mkReport 1 "a.js" 12 137 "out of memory"))
            JSREPORT_WARNING <> 0
  /\ ~ terminates
         (gjs_warning_reporter
            (Some (mkReport 1 "a.js" 12 137 "out of memory")))
  /\ gjs_warning_reporter (Some (mkReport 1 "a.js" 12 137 "out of memory"))
     = Returned
         [mkLog G_LOG_DOMAIN G_LOG_LEVEL_MESSAGE
            ("JS WARNING: ["
               ++ filename (mkReport 1 "a.js" 12 137 "out of memory") ++ " "
               ++ decimal
                    (as_int (lineno (mkReport 1 "a.js" 12 137 "out of memory")))
               ++ "]: "
               ++ report_message (mkReport 1 "a.js" 12 137 "out of memory"))].
Proof.
  assert (Hw : Z.land (flags (mkReport 1 "a.js" 12 137 "out of memory"))
                      JSREPORT_WARNING <> 0)
    by (vm_compute; discriminate).
  split; [reflexivity | split; [exact Hw |]].
  exact (reporter_oom_warning_is_logged
           (mkReport 1 "a.js" 12 137 "out of memory") eq_refl Hw).
Defined.


(** * Further properties *)

(** ** The warning reporter: the ordinary paths *)

Section ReporterPaths.

Context {P : Process}.

Lemma reporter_error_branch (report : JSErrorReport) :
  Z.land (flags report) JSREPORT_WARNING = 0 ->
  ~ (gjs_environment_variable_is_set "GJS_ABORT_ON_OOM" = true
     /\ flags report = JSREPORT_ERROR
     /\ errorNumber report = 137) ->
  gjs_warning_reporter (Some report) =
    Returned
      [mkLog G_LOG_DOMAIN G_LOG_LEVEL_WARNING
         (g_strdup_vprintf "JS %s: [%s %d]: %s"
            [ArgString "REPORTED"; ArgString (filename report);
             ArgInt (lineno report); ArgString (report_message report)])].
Proof.
  intros Hw Hn. unfold gjs_warning_reporter.
  destruct (gjs_environment_variable_is_set "GJS_ABORT_ON_OOM"
            && (flags report =? JSREPORT_ERROR)
            && (errorNumber report =? 137)) eqn:E.
  - exfalso. apply Hn.
    apply andb_true_iff in E as [E En]. apply andb_true_iff in E as [Et Ef].
    apply Z.eqb_eq in En, Ef. auto.
  - rewrite Hw. reflexivity.
Qed.

(** X1: a report without the warning bit that does not meet the fatal
    condition is logged once, under the label REPORTED at warning level,
    with its file, line and message; number 162 is no exception here. *)
Theorem reporter_error_is_reported (report : JSErrorReport) :
  Z.land (flags report) JSREPORT_WARNING = 0 ->
  ~ (gjs_environment_variable_is_set "GJS_ABORT_ON_OOM" = true
     /\ flags report = JSREPORT_ERROR
     /\ errorNumber report = 137) ->
  gjs_warning_reporter (Some report) =
    Returned
      [mkLog G_LOG_DOMAIN G_LOG_LEVEL_WARNING
         ("JS REPORTED: [" ++ filename report ++ " "
            ++ decimal (as_int (lineno report)) ++ "]: "
            ++ report_message report)].
Proof.
  intros Hw Hn.
  rewrite (reporter_error_branch report Hw Hn), format_report. reflexivity.
Qed.

(** X2: a report with the warning bit and any number but 162 is logged
    once, under the label WARNING at message level, with its file, line
    and message. *)
Theorem reporter_warning_is_logged (report : JSErrorReport) :
  Z.land (flags report) JSREPORT_WARNING <> 0 ->
  errorNumber report <> 162 ->
  gjs_warning_reporter (Some report) =
    Returned
      [mkLog G_LOG_DOMAIN G_LOG_LEVEL_MESSAGE
         ("JS WARNING: [" ++ filename report ++ " "
            ++ decimal (as_int (lineno report)) ++ "]: "
            ++ report_message report)].
Proof.
  intros Hw Hn. rewrite (reporter_warning_branch report Hw).
  apply Z.eqb_neq in Hn. rewrite Hn, format_report. reflexivity.
Qed.

(** X3: whenever the reporter returns, it has logged at most one record,
    in the build's log domain, at message level for a report with the
    warning bit and at warning level otherwise: never at error or
    critical level. *)
Theorem reporter_log_levels (report : JSErrorReport) (log : list LogRecord) :
  gjs_warning_reporter (Some report) = Returned log ->
  (length log <= 1)%nat
  /\ Forall (fun r =>
               log_domain r = G_LOG_DOMAIN
               /\ log_level r =
                    if Z.land (flags report) JSREPORT_WARNING =? 0
                    then G_LOG_LEVEL_WARNING else G_LOG_LEVEL_MESSAGE) log.
Proof.
  unfold gjs_warning_reporter.
  destruct (gjs_environment_variable_is_set "GJS_ABORT_ON_OOM"
            && (flags report =? JSREPORT_ERROR)
            && (errorNumber report =? 137)); [discriminate|].
  destruct (Z.land (flags report) JSREPORT_WARNING =? 0); cbn [negb].
  - intros H. injection H as <-. split; [apply le_n|].
    constructor; [split; reflexivity | constructor].
  - destruct (errorNumber report =? 162); intros H; injection H as <-.
    + split; [apply Nat.le_0_l | constructor].
    + split; [apply le_n|].
      constructor; [split; reflexivity | constructor].
Qed.

End ReporterPaths.

Lemma reporter_error_is_reported_witness :
  Z.land (flags (mkReport 2 "a.js" 7 162 "x is undefined")) JSREPORT_WARNING
  = 0
  /\ ~ (gjs_environment_variable_is_set "GJS_ABORT_ON_OOM" = true
        /\ flags (mkReport 2 "a.js" 7 162 "x is undefined") = JSREPORT_ERROR
        /\ errorNumber (mkReport 2 "a.js" 7 162 "x is undefined") = 137)
  /\ gjs_warning_reporter (Some (mkReport 2 "a.js" 7 162 "x is undefined"))
     = Returned
         [mkLog G_LOG_DOMAIN G_LOG_LEVEL_WARNING
            ("JS REPORTED: ["
               ++ filename (mkReport 2 "a.js" 7 162 "x is undefined") ++ " "
               ++ decimal
                    (as_int (lineno (mkReport 2 "a.js" 7 162 "x is undefined")))
               ++ "]: "
               ++ report_message (mkReport 2 "a.js" 7 162 "x is undefined"))].
Proof.
  assert (Hn : ~ (gjs_environment_variable_is_set "GJS_ABORT_ON_OOM" = true
                  /\ flags (mkReport 2 "a.js" 7 162 "x is undefined")
                     = JSREPORT_ERROR
                  /\ errorNumber (mkReport 2 "a.js" 7 162 "x is undefined")
                     = 137))
    by (intros (_ & Hf & _); vm_compute in Hf; discriminate Hf).
  split; [reflexivity | split; [exact Hn |]].
  exact (reporter_error_is_reported
           (mkReport 2 "a.js" 7 162 "x is undefined") eq_refl Hn).
Defined.

Lemma reporter_warning_is_logged_witness :
  Z.land (flags (mkReport 5 "b.js" 40 157 "unreachable code")) JSREPORT_WARNING
  <> 0
  /\ errorNumber (mkReport 5 "b.js" 40 157 "unreachable code") <> 162
  /\ gjs_warning_reporter (Some (mkReport 5 "b.js" 40 157 "unreachable code"))
     = Returned
         [mkLog G_LOG_DOMAIN G_LOG_LEVEL_MESSAGE
            ("JS WARNING: ["
               ++ filename (mkReport 5 "b.js" 40 157 "unreachable code") ++ " "
               ++ decimal
                    (as_int
                       (lineno (mkReport 5 "b.js" 40 157 "unreachable code")))
               ++ "]: "
               ++ report_message (mkReport 5 "b.js" 40 157 "unreachable code"))].
Proof.
  assert (Hw : Z.land (flags (mkReport 5 "b.js" 40 157 "unreachable code"))
                      JSREPORT_WARNING <> 0)
    by (vm_compute; discriminate).
  assert (Hn : errorNumber (mkReport 5 "b.js" 40 157 "unreachable code")
               <> 162)
    by (vm_compute; discriminate).
  split; [exact Hw | split; [exact Hn |]].
  exact (reporter_warning_is_logged
           (mkReport 5 "b.js" 40 157 "unreachable code") Hw Hn).
Defined.

Lemma reporter_log_levels_witness :
  gjs_warning_reporter (Some (mkReport 5 "b.js" 40 157 "unreachable code"))
  = Returned
      [mkLog "Gjs" G_LOG_LEVEL_MESSAGE
         "JS WARNING: [b.js 40]: unreachable code"]
  /\ (length [mkLog "Gjs" G_LOG_LEVEL_MESSAGE
                "JS WARNING: [b.js 40]: unreachable code"] <= 1)%nat
  /\ Forall (fun r =>
               log_domain r = G_LOG_DOMAIN
               /\ log_level r =
                    if Z.land
                         (flags (mkReport 5 "b.js" 40 157 "unreachable code"))
                         JSREPORT_WARNING =? 0
                    then G_LOG_LEVEL_WARNING else G_LOG_LEVEL_MESSAGE)
            [mkLog "Gjs" G_LOG_LEVEL_MESSAGE
               "JS WARNING: [b.js 40]: unreachable code"].
Proof.
  split; [reflexivity |].
  exact (reporter_log_levels
           (mkReport 5 "b.js" 40 157 "unreachable code")
           [mkLog "Gjs" G_LOG_LEVEL_MESSAGE
              "JS WARNING: [b.js 40]: unreachable code"]
           eq_refl).
Defined.

(** ** The throw engine: failure and custom-name paths *)

Section EnginePaths.

Context {heap : Type} {R : Runtime heap}.

(** X4: when no exception is pending and the message cannot be turned
    into a runtime string, [gjs_throw_valist] looks up no class and
    builds no object; it reports the copy failure, then the failed throw
    with the message, and still frees the buffer and leaves the request.
    The context is what the two reports made of it. *)
Theorem throw_valist_copy_failure
        (kind : JSProtoKey) (name : option string) (format : string)
        (args : list printf_arg) (cx cx1 : JSContext heap) :
  cx_pending cx = None ->
  gjs_string_from_utf8 (g_strdup_vprintf format args) cx = (None, cx1) ->
  gjs_throw_valist kind name format args cx =
    mkResult tt
      (JS_ReportErrorUTF8
         ("Failed to throw exception '" ++ g_strdup_vprintf format args ++ "'")
         (JS_ReportErrorUTF8 "Failed to copy exception string" cx1))
      [EvAlloc (g_strdup_vprintf format args);
       EvEnterCompartment (gjs_get_import_global cx);
       EvBeginRequest;
       EvRuntime (Call_gjs_string_from_utf8 (g_strdup_vprintf format args));
       EvReportError "Failed to copy exception string";
       EvReportError
         ("Failed to throw exception '" ++ g_strdup_vprintf format args ++ "'");
       EvFree (g_strdup_vprintf format args);
       EvEndRequest;
       EvLeaveCompartment].
Proof.
  intros Hp H0. unfold_bridge. cbn.
  rewrite Hp. cbn. rewrite H0. cbn. reflexivity.
Qed.

(** X5: [gjs_throw_custom] with a class of the closed set and a custom
    name, when nothing is pending and the runtime calls succeed: the
    object is built from the formatted message, its name property is set
    from the given name, and only then is it made pending. *)
Theorem throw_custom_installs_named
        (kind : JSProtoKey) (name format : string) (args : list printf_arg)
        (cx cx1 cx2 cx3 cx4 cx5 : JSContext heap)
        (arg0 name_value : JSValue) (ctor exc : JSObject) :
  In kind ErrorKind ->
  cx_pending cx = None ->
  gjs_string_from_utf8 (g_strdup_vprintf format args) cx = (Some arg0, cx1) ->
  JS_GetClassObject kind cx1 = (Some ctor, cx2) ->
  JS_New ctor [arg0] cx2 = (Some exc, cx3) ->
  gjs_string_from_utf8 name cx3 = (Some name_value, cx4) ->
  gjs_object_set_property exc GJS_STRING_NAME name_value cx4
    = (Some tt, cx5) ->
  after (gjs_throw_custom kind (Some name) format args cx)
    = mkContext (cx_heap cx5) (Some (ObjectValue exc))
  /\ runtime_calls
       (events (gjs_throw_custom kind (Some name) format args cx))
     = [Call_gjs_string_from_utf8 (g_strdup_vprintf format args);
        Call_JS_GetClassObject kind;
        Call_JS_New ctor [arg0];
        Call_gjs_string_from_utf8 name;
        Call_gjs_object_set_property exc GJS_STRING_NAME name_value].
Proof.
  intros Hk Hp H0 H1 H2 H3 H4. unfold gjs_throw_custom.
  apply is_error_kind_spec in Hk. rewrite Hk.
  unfold_bridge. cbn.
  rewrite Hp. cbn. rewrite H0. cbn. rewrite H1. cbn. rewrite H2. cbn.
  rewrite H3. cbn. rewrite H4. cbn. split; reflexivity.
Qed.

(** X6: when the object has been built but the custom name cannot be
    turned into a runtime string, the name property is never set and the
    object is never made pending; the failed throw is reported with the
    message, and cleanup runs as on every path. *)
Theorem throw_custom_name_failure
        (kind : JSProtoKey) (name format : string) (args : list printf_arg)
        (cx cx1 cx2 cx3 cx4 : JSContext heap)
        (arg0 : JSValue) (ctor exc : JSObject) :
  In kind ErrorKind ->
  cx_pending cx = None ->
  gjs_string_from_utf8 (g_strdup_vprintf format args) cx = (Some arg0, cx1) ->
  JS_GetClassObject kind cx1 = (Some ctor, cx2) ->
  JS_New ctor [arg0] cx2 = (Some exc, cx3) ->
  gjs_string_from_utf8 name cx3 = (None, cx4) ->
  gjs_throw_custom kind (Some name) format args cx =
    mkResult tt
      (JS_ReportErrorUTF8
         ("Failed to throw exception '" ++ g_strdup_vprintf format args ++ "'")
         cx4)
      [EvAlloc (g_strdup_vprintf format args);
       EvEnterCompartment (gjs_get_import_global cx);
       EvBeginRequest;
       EvRuntime (Call_gjs_string_from_utf8 (g_strdup_vprintf format args));
       EvRuntime (Call_JS_GetClassObject kind);
       EvRuntime (Call_JS_New ctor [arg0]);
       EvRuntime (Call_gjs_string_from_utf8 name);
       EvReportError
         ("Failed to throw exception '" ++ g_strdup_vprintf format args ++ "'");
       EvFree (g_strdup_vprintf format args);
       EvEndRequest;
       EvLeaveCompartment].
Proof.
  intros Hk Hp H0 H1 H2 H3. unfold gjs_throw_custom.
  apply is_error_kind_spec in Hk. rewrite Hk.
  unfold_bridge. cbn.
  rewrite Hp. cbn. rewrite H0. cbn. rewrite H1. cbn. rewrite H2. cbn.
  rewrite H3. cbn. reflexivity.
Qed.

(** X10: the way to replace a pending exception that the source
    documents: after [JS_ClearPendingException], a [gjs_throw] whose
    construction succeeds makes its own object pending, whatever was
    pending before the clear. *)
Theorem clear_then_throw_installs
        (format : string) (args : list printf_arg)
        (cx cx1 cx2 cx3 : JSContext heap)
        (arg0 : JSValue) (ctor exc : JSObject) :
  gjs_string_from_utf8 (g_strdup_vprintf format args)
    (mkContext (cx_heap cx) None) = (Some arg0, cx1) ->
  JS_GetClassObject JSProto_Error cx1 = (Some ctor, cx2) ->
  JS_New ctor [arg0] cx2 = (Some exc, cx3) ->
  cx_pending
    (after (gjs_throw format args (after (JS_ClearPendingException cx))))
  = Some (ObjectValue exc).
Proof.
  intros H0 H1 H2. unfold gjs_throw, JS_ClearPendingException.
  cbn [after].
  rewrite (throw_valist_installs JSProto_Error format args
             (mkContext (cx_heap cx) None) cx1 cx2 cx3 arg0 ctor exc
             eq_refl H0 H1 H2).
  reflexivity.
Qed.

End EnginePaths.

(** ** Calls in sequence *)

Lemma format_plain (text : string) (args : list printf_arg) :
  ~ In "%"%char (list_ascii_of_string text) ->
  g_strdup_vprintf text args = text.
Proof.
  induction text as [|a tail IH]; cbn; [reflexivity|].
  intros Hn. destruct (Ascii.eqb_spec a "%") as [->|_].
  - exfalso. apply Hn. left. reflexivity.
  - rewrite IH; [reflexivity|]. intros Hin. apply Hn. right. exact Hin.
Qed.

Lemma balanced_app (a b : list Event) :
  balanced a -> balanced b -> balanced (a ++ b).
Proof.
  unfold balanced, requests_entered, requests_exited, compartments_entered,
    compartments_left, allocations, freed_buffers.
  intros (Ha1 & Ha2 & Ha3) (Hb1 & Hb2 & Hb3).
  rewrite !filter_app, !length_app, !flat_map_app.
  repeat split; congruence.
Qed.

Lemma inner_events_quiet (t : list Event) :
  forallb is_inner t = true ->
  compartments_entered t = O /\ compartments_left t = O
  /\ freed_errors t = [].
Proof.
  unfold compartments_entered, compartments_left.
  induction t as [|e t IH]; cbn; [intros _; repeat split|].
  intros H. apply andb_true_iff in H as [He Ht].
  destruct (IH Ht) as (H1 & H2 & H3).
  destruct e; cbn in He; try discriminate; cbn; repeat split; assumption.
Qed.

Section Sequences.

Context {heap : Type} {R : Runtime heap}.

Lemma bind_after {A B : Type} (m : M heap A) (f : A -> M heap B)
      (cx : JSContext heap) :
  after (bind m f cx) = after (f (value (m cx)) (after (m cx))).
Proof.
  unfold bind. destruct (m cx) as [a cx1 t1]. cbn.
  destruct (f a cx1). reflexivity.
Qed.

Lemma throw_valist_same_message (kind : JSProtoKey) (name : option string)
      (f1 f2 : string) (a1 a2 : list printf_arg) :
  g_strdup_vprintf f1 a1 = g_strdup_vprintf f2 a2 ->
  gjs_throw_valist kind name f1 a1 = gjs_throw_valist kind name f2 a2.
Proof. intros H. unfold gjs_throw_valist. rewrite H. reflexivity. Qed.

(** With an exception pending, a raise through any entry point and with
    any class returns the context as it got it and calls no runtime
    entry point. *)
Lemma raise_keeps_context (r : RaiseCall) (cx : JSContext heap) :
  cx_pending cx <> None ->
  after (raise r cx) = cx /\ runtime_calls (events (raise r cx)) = [].
Proof.
  intros Hp.
  destruct r as [format args|kind name format args|text]; cbn [raise];
    unfold gjs_throw_literal, gjs_throw, gjs_throw_custom;
    try destruct (is_error_kind kind);
    try rewrite (throw_valist_suppressed _ _ _ _ _ Hp);
    split; reflexivity.
Qed.

Lemma format_stack_trace_slot (saved_frame : option JSObject)
      (cx : JSContext heap) :
  cx_pending (after (gjs_format_stack_trace saved_frame cx)) = cx_pending cx.
Proof.
  unfold gjs_format_stack_trace, AutoSaveExceptionState,
    AutoSaveExceptionState_restore, runtime, bind, ret. cbn.
  destruct (BuildStackString saved_frame 2 (mkContext (cx_heap cx) None))
    as [[stack|] cx1]; cbn; [|reflexivity].
  destruct (JS_EncodeStringToUTF8 stack cx1) as [[utf8|] cx2]; reflexivity.
Qed.

Lemma format_stack_trace_events (saved_frame : option JSObject)
      (cx : JSContext heap) :
  events (gjs_format_stack_trace saved_frame cx) =
    EvRuntime (Call_BuildStackString saved_frame 2)
    :: match fst (BuildStackString saved_frame 2
                    (mkContext (cx_heap cx) None)) with
       | Some stack => [EvRuntime (Call_JS_EncodeStringToUTF8 stack)]
       | None => []
       end.
Proof.
  unfold gjs_format_stack_trace, AutoSaveExceptionState,
    AutoSaveExceptionState_restore, runtime, bind, ret. cbn.
  destruct (BuildStackString saved_frame 2 (mkContext (cx_heap cx) None))
    as [[stack|] cx1]; cbn; [|reflexivity].
  destruct (JS_EncodeStringToUTF8 stack cx1) as [[utf8|] cx2]; reflexivity.
Qed.

Lemma throw_g_error_events (error : GError) (cx : JSContext heap) :
  events (gjs_throw_g_error (Some error) cx) =
    [EvBeginRequest;
     EvRuntime (Call_gjs_error_from_gerror error true);
     EvGErrorFree error;
     EvEndRequest].
Proof.
  unfold gjs_throw_g_error, JS_BeginRequest, JS_EndRequest,
    JS_SetPendingException, runtime, emit, bind, ret. cbn.
  destruct (gjs_error_from_gerror error true cx) as [[exc|] cx1];
    reflexivity.
Qed.

Lemma raise_balanced (r : RaiseCall) (cx : JSContext heap) :
  balanced (events (raise r cx)) /\ freed_errors (events (raise r cx)) = [].
Proof.
  assert (Hv : forall kind name format args,
             balanced (events (gjs_throw_valist kind name format args cx))
             /\ freed_errors
                  (events (gjs_throw_valist kind name format args cx)) = []).
  { intros kind name format args.
    destruct (throw_valist_shape kind name format args cx)
      as (body & -> & Hbody).
    assert (Hq : (allocations body = [] /\ freed_buffers body = []
                  /\ requests_entered body = O /\ requests_exited body = O)
                 /\ compartments_entered body = O
                 /\ compartments_left body = O
                 /\ freed_errors body = []).
    { destruct Hbody as [Hin | ->].
      - split; [now apply inner_events_release_nothing
               | now apply inner_events_quiet].
      - repeat split. }
    destruct Hq as ((Ha & Hf & Hb & Hx) & Hce & Hcl & Hfe).
    unfold balanced, allocations, freed_buffers, requests_entered,
      requests_exited, compartments_entered, compartments_left,
      freed_errors in *.
    rewrite !flat_map_app, !filter_app, !length_app.
    rewrite Ha, Hf, Hb, Hx, Hce, Hcl, Hfe. repeat split. }
  destruct r as [format args|kind name format args|text]; cbn [raise];
    unfold gjs_throw_literal, gjs_throw, gjs_throw_custom;
    try destruct (is_error_kind kind); try apply Hv.
  repeat split.
Qed.

Lemma perform_balanced (c : BridgeCall) (cx : JSContext heap) :
  balanced (events (perform c cx))
  /\ freed_errors (events (perform c cx)) = errors_passed [c].
Proof.
  destruct c as [r|[e|]|saved_frame]; cbn [perform errors_passed flat_map].
  - apply raise_balanced.
  - rewrite throw_g_error_events. repeat split.
  - repeat split.
  - rewrite bind_events, format_stack_trace_events. cbn.
    destruct (fst (BuildStackString saved_frame 2
                     (mkContext (cx_heap cx) None))); repeat split.
Qed.

(** X14: whatever the runtime does and however the calls end, any
    sequence of raises, [GError] conversions and stack-trace formattings
    leaves no request open, no compartment entered and no formatted
    buffer unfreed, and it has freed exactly the records it was handed,
    in the order it got them. *)
Theorem bridge_calls_balanced (cs : list BridgeCall) (cx : JSContext heap) :
  balanced (events (perform_all cs cx))
  /\ freed_errors (events (perform_all cs cx)) = errors_passed cs.
Proof.
  revert cx. induction cs as [|c cs IH]; intros cx.
  - repeat split.
  - cbn [perform_all]. rewrite bind_events.
    destruct (perform_balanced c cx) as (Hb & Hf).
    destruct (IH (after (perform c cx))) as (Hb' & Hf').
    split.
    + apply balanced_app; assumption.
    + unfold freed_errors, errors_passed in *.
      rewrite flat_map_app, Hf, Hf'. cbn. rewrite app_nil_r. reflexivity.
Qed.

(** X7: once an exception is pending, any number of raises, through any
    of the three entry points and with any class, returns the context
    exactly as it was and never calls into the runtime. *)
Theorem pending_survives_raises (rs : list RaiseCall) (cx : JSContext heap) :
  cx_pending cx <> None ->
  after (perform_all (map CallRaise rs) cx) = cx
  /\ runtime_calls (events (perform_all (map CallRaise rs) cx)) = [].
Proof.
  intros Hp. induction rs as [|r rs IH]; cbn [map perform_all].
  - split; reflexivity.
  - destruct (raise_keeps_context r cx Hp) as (Ha & Hc).
    destruct IH as (IHa & IHc).
    rewrite bind_after, bind_events. cbn [perform].
    unfold runtime_calls in *. rewrite flat_map_app, Ha, Hc, IHc.
    split; [exact IHa | reflexivity].
Qed.

(** X8: formatting stack traces between raises does not reopen the slot:
    through any sequence of raises and stack-trace formattings, an
    exception that was pending at the start is the one pending at the
    end. *)
Theorem pending_survives_raises_and_traces
        (cs : list BridgeCall) (cx : JSContext heap) :
  forallb (fun c => negb (is_throw_g_error c)) cs = true ->
  cx_pending cx <> None ->
  cx_pending (after (perform_all cs cx)) = cx_pending cx.
Proof.
  revert cx. induction cs as [|c cs IH]; intros cx Hcs Hp; [reflexivity|].
  cbn in Hcs. apply andb_true_iff in Hcs as [Hc Hcs].
  cbn [perform_all]. rewrite bind_after.
  assert (Hstep : cx_pending (after (perform c cx)) = cx_pending cx).
  { destruct c as [r|e|saved_frame]; cbn [perform].
    - destruct (raise_keeps_context r cx Hp) as (-> & _). reflexivity.
    - discriminate Hc.
    - rewrite bind_after. cbn. apply format_stack_trace_slot. }
  rewrite IH; [exact Hstep | exact Hcs | congruence].
Qed.

(** X9: an exception installed from a [GError] takes part in the
    precedence rule like any other: a raise that follows leaves it, and
    the whole context, in place. *)
Theorem gerror_exception_is_kept
        (error : GError) (r : RaiseCall) (cx cx1 : JSContext heap)
        (exc : JSObject) :
  gjs_error_from_gerror error true cx = (Some exc, cx1) ->
  after (raise r (after (gjs_throw_g_error (Some error) cx)))
  = mkContext (cx_heap cx1) (Some (ObjectValue exc)).
Proof.
  intros H.
  assert (Ha : after (gjs_throw_g_error (Some error) cx)
               = mkContext (cx_heap cx1) (Some (ObjectValue exc))).
  { unfold gjs_throw_g_error, JS_BeginRequest, JS_EndRequest,
      JS_SetPendingException, runtime, emit, bind, ret. cbn.
    rewrite H. reflexivity. }
  rewrite Ha. apply raise_keeps_context. cbn. discriminate.
Qed.

(** X11: when the conversion of the record yields no object,
    [gjs_throw_g_error] writes nothing into the slot: the context is the
    one the conversion left, so an exception pending before stays unless
    the conversion itself replaced it; the record is freed all the
    same. *)
Theorem throw_g_error_conversion_failure
        (error : GError) (cx cx1 : JSContext heap) :
  gjs_error_from_gerror error true cx = (None, cx1) ->
  after (gjs_throw_g_error (Some error) cx) = cx1
  /\ freed_errors (events (gjs_throw_g_error (Some error) cx)) = [error].
Proof.
  intros H. unfold gjs_throw_g_error, JS_BeginRequest, JS_EndRequest,
    JS_SetPendingException, runtime, emit, bind, ret. cbn.
  rewrite H. split; reflexivity.
Qed.

(** X12: [gjs_format_stack_trace] returns a string exactly when the
    stack string is built, its UTF-8 encoding succeeds and the encoding
    converts to a filename; the string is then that filename. *)
Theorem format_stack_trace_result_iff
        (saved_frame : option JSObject) (cx : JSContext heap)
        (result : string) :
  value (gjs_format_stack_trace saved_frame cx) = Some result <->
  exists (stack : JSString) (cx1 : JSContext heap) (utf8 : string)
         (cx2 : JSContext heap),
    BuildStackString saved_frame 2 (mkContext (cx_heap cx) None)
      = (Some stack, cx1)
    /\ JS_EncodeStringToUTF8 stack cx1 = (Some utf8, cx2)
    /\ g_filename_from_utf8 utf8 = Some result.
Proof.
  unfold gjs_format_stack_trace, AutoSaveExceptionState,
    AutoSaveExceptionState_restore, runtime, bind, ret. cbn.
  destruct (BuildStackString saved_frame 2 (mkContext (cx_heap cx) None))
    as [[stack|] cx1]; cbn.
  - destruct (JS_EncodeStringToUTF8 stack cx1) as [[utf8|] cx2] eqn:E; cbn.
    + split.
      * intros Hf. exists stack, cx1, utf8, cx2. repeat split; assumption.
      * intros (st & c1 & u & c2 & Hb & He & Hf).
        injection Hb as <- <-. rewrite E in He. injection He as <- <-.
        exact Hf.
    + split; [discriminate|].
      intros (st & c1 & u & c2 & Hb & He & _).
      injection Hb as <- <-. rewrite E in He. discriminate.
  - split; [discriminate|].
    intros (st & c1 & u & c2 & Hb & _). discriminate.
Qed.

(** X13: when the stack string cannot be built, [gjs_format_stack_trace]
    asks for no encoding and returns no string; it has entered no request
    and freed nothing, and it hands back the runtime's state with the
    caller's pending exception put back in the slot. *)
Theorem format_stack_trace_build_failure
        (saved_frame : option JSObject) (cx cx1 : JSContext heap) :
  BuildStackString saved_frame 2 (mkContext (cx_heap cx) None)
    = (None, cx1) ->
  gjs_format_stack_trace saved_frame cx =
    mkResult None (mkContext (cx_heap cx1) (cx_pending cx))
      [EvRuntime (Call_BuildStackString saved_frame 2)].
Proof.
  intros H. unfold gjs_format_stack_trace, AutoSaveExceptionState,
    AutoSaveExceptionState_restore, runtime, bind, ret. cbn.
  rewrite H. reflexivity.
Qed.

(** X15: for a text without a percent sign, [gjs_throw] with the text as
    its format and [gjs_throw_literal] do the same thing, whatever
    arguments follow the format. *)
Theorem throw_plain_text_is_literal
        (text : string) (args : list printf_arg) (cx : JSContext heap) :
  ~ In "%"%char (list_ascii_of_string text) ->
  gjs_throw text args cx = gjs_throw_literal text cx.
Proof.
  intros Hn. unfold gjs_throw_literal, gjs_throw.
  rewrite (throw_valist_same_message JSProto_Error None text "%s" args
             [ArgString text]); [reflexivity|].
  rewrite format_literal. apply format_plain. exact Hn.
Qed.

End Sequences.

(** ** The further properties on concrete runs *)

Lemma throw_valist_copy_failure_witness :
  cx_pending sample_context = None
  /\ gjs_string_from_utf8 (g_strdup_vprintf invalid_utf8 []) sample_context
     = (None, sample_context)
  /\ gjs_throw_valist JSProto_Error None invalid_utf8 [] sample_context =
       mkResult tt
         (JS_ReportErrorUTF8
            ("Failed to throw exception '" ++ g_strdup_vprintf invalid_utf8 []
               ++ "'")
            (JS_ReportErrorUTF8 "Failed to copy exception string"
               sample_context))
         [EvAlloc (g_strdup_vprintf invalid_utf8 []);
          EvEnterCompartment (gjs_get_import_global sample_context);
          EvBeginRequest;
          EvRuntime
            (Call_gjs_string_from_utf8 (g_strdup_vprintf invalid_utf8 []));
          EvReportError "Failed to copy exception string";
          EvReportError
            ("Failed to throw exception '" ++ g_strdup_vprintf invalid_utf8 []
               ++ "'");
          EvFree (g_strdup_vprintf invalid_utf8 []);
          EvEndRequest;
          EvLeaveCompartment].
Proof.
  do 2 (split; [reflexivity |]).
  exact (throw_valist_copy_failure JSProto_Error None invalid_utf8 []
           sample_context sample_context eq_refl eq_refl).
Defined.

Lemma throw_custom_installs_named_witness :
  In JSProto_TypeError ErrorKind
  /\ cx_pending sample_context = None
  /\ gjs_string_from_utf8 (g_strdup_vprintf "bad arg %d" [ArgInt 3])
       sample_context
     = (Some (StringValue "bad arg 3"), sample_context)
  /\ JS_GetClassObject JSProto_TypeError sample_context
     = (Some 1%nat,
        mkContext [SimGlobal; SimConstructor JSProto_TypeError] None)
  /\ JS_New 1%nat [StringValue "bad arg 3"]
       (mkContext [SimGlobal; SimConstructor JSProto_TypeError] None)
     = (Some 2%nat,
        mkContext [SimGlobal; SimConstructor JSProto_TypeError;
                   SimError JSProto_TypeError (StringValue "bad arg 3") None]
                  None)
  /\ gjs_string_from_utf8 "MyError"
       (mkContext [SimGlobal; SimConstructor JSProto_TypeError;
                   SimError JSProto_TypeError (StringValue "bad arg 3") None]
                  None)
     = (Some (StringValue "MyError"),
        mkContext [SimGlobal; SimConstructor JSProto_TypeError;
                   SimError JSProto_TypeError (StringValue "bad arg 3") None]
                  None)
  /\ gjs_object_set_property 2%nat GJS_STRING_NAME (StringValue "MyError")
       (mkContext [SimGlobal; SimConstructor JSProto_TypeError;
                   SimError JSProto_TypeError (StringValue "bad arg 3") None]
                  None)
     = (Some tt,
        mkContext [SimGlobal; SimConstructor JSProto_TypeError;
                   SimError JSProto_TypeError (StringValue "bad arg 3")
                     (Some (StringValue "MyError"))]
                  None)
  /\ after (gjs_throw_custom JSProto_TypeError (Some "MyError") "bad arg %d"
              [ArgInt 3] sample_context)
     = mkContext
         (cx_heap
            (mkContext [SimGlobal; SimConstructor JSProto_TypeError;
                        SimError JSProto_TypeError (StringValue "bad arg 3")
                          (Some (StringValue "MyError"))]
                       None))
         (Some (ObjectValue 2%nat))
  /\ runtime_calls
       (events (gjs_throw_custom JSProto_TypeError (Some "MyError")
                  "bad arg %d" [ArgInt 3] sample_context))
     = [Call_gjs_string_from_utf8 (g_strdup_vprintf "bad arg %d" [ArgInt 3]);
        Call_JS_GetClassObject JSProto_TypeError;
        Call_JS_New 1%nat [StringValue "bad arg 3"];
        Call_gjs_string_from_utf8 "MyError";
        Call_gjs_object_set_property 2%nat GJS_STRING_NAME
          (StringValue "MyError")].
Proof.
  assert (Hk : In JSProto_TypeError ErrorKind) by (simpl; tauto).
  split; [exact Hk |]. do 6 (split; [reflexivity |]).
  exact (throw_custom_installs_named JSProto_TypeError "MyError" "bad arg %d"
           [ArgInt 3] sample_context sample_context
           (mkContext [SimGlobal; SimConstructor JSProto_TypeError] None)
           (mkContext [SimGlobal; SimConstructor JSProto_TypeError;
                       SimError JSProto_TypeError (StringValue "bad arg 3")
                         None] None)
           (mkContext [SimGlobal; SimConstructor JSProto_TypeError;
                       SimError JSProto_TypeError (StringValue "bad arg 3")
                         None] None)
           (mkContext [SimGlobal; SimConstructor JSProto_TypeError;
                       SimError JSProto_TypeError (StringValue "bad arg 3")
                         (Some (StringValue "MyError"))] None)
           (StringValue "bad arg 3") (StringValue "MyError") 1%nat 2%nat
           Hk eq_refl eq_refl eq_refl eq_refl eq_refl eq_refl).
Defined.

Lemma throw_custom_name_failure_witness :
  In JSProto_RangeError ErrorKind
  /\ cx_pending sample_context = None
  /\ gjs_string_from_utf8 (g_strdup_vprintf "too big" []) sample_context
     = (Some (StringValue "too big"), sample_context)
  /\ JS_GetClassObject JSProto_RangeError sample_context
     = (Some 1%nat,
        mkContext [SimGlobal; SimConstructor JSProto_RangeError] None)
  /\ JS_New 1%nat [StringValue "too big"]
       (mkContext [SimGlobal; SimConstructor JSProto_RangeError] None)
     = (Some 2%nat,
        mkContext [SimGlobal; SimConstructor JSProto_RangeError;
                   SimError JSProto_RangeError (StringValue "too big") None]
                  None)
  /\ gjs_string_from_utf8 invalid_utf8
       (mkContext [SimGlobal; SimConstructor JSProto_RangeError;
                   SimError JSProto_RangeError (StringValue "too big") None]
                  None)
     = (None,
        mkContext [SimGlobal; SimConstructor JSProto_RangeError;
                   SimError JSProto_RangeError (StringValue "too big") None]
                  None)
  /\ gjs_throw_custom JSProto_RangeError (Some invalid_utf8) "too big" []
       sample_context =
       mkResult tt
         (JS_ReportErrorUTF8
            ("Failed to throw exception '" ++ g_strdup_vprintf "too big" []
               ++ "'")
            (mkContext [SimGlobal; SimConstructor JSProto_RangeError;
                        SimError JSProto_RangeError (StringValue "too big")
                          None] None))
         [EvAlloc (g_strdup_vprintf "too big" []);
          EvEnterCompartment (gjs_get_import_global sample_context);
          EvBeginRequest;
          EvRuntime (Call_gjs_string_from_utf8 (g_strdup_vprintf "too big" []));
          EvRuntime (Call_JS_GetClassObject JSProto_RangeError);
          EvRuntime (Call_JS_New 1%nat [StringValue "too big"]);
          EvRuntime (Call_gjs_string_from_utf8 invalid_utf8);
          EvReportError
            ("Failed to throw exception '" ++ g_strdup_vprintf "too big" []
               ++ "'");
          EvFree (g_strdup_vprintf "too big" []);
          EvEndRequest;
          EvLeaveCompartment].
Proof.
  assert (Hk : In JSProto_RangeError ErrorKind) by (simpl; tauto).
  split; [exact Hk |]. do 5 (split; [reflexivity |]).
  exact (throw_custom_name_failure JSProto_RangeError invalid_utf8 "too big"
           [] sample_context sample_context
           (mkContext [SimGlobal; SimConstructor JSProto_RangeError] None)
           (mkContext [SimGlobal; SimConstructor JSProto_RangeError;
                       SimError JSProto_RangeError (StringValue "too big")
                         None] None)
           (mkContext [SimGlobal; SimConstructor JSProto_RangeError;
                       SimError JSProto_RangeError (StringValue "too big")
                         None] None)
           (StringValue "too big") 1%nat 2%nat
           Hk eq_refl eq_refl eq_refl eq_refl eq_refl).
Defined.

Lemma clear_then_throw_installs_witness :
  gjs_string_from_utf8 (g_strdup_vprintf "new" [])
    (mkContext (cx_heap occupied_context) None)
  = (Some (StringValue "new"), sample_context)
  /\ JS_GetClassObject JSProto_Error sample_context
     = (Some 1%nat, mkContext [SimGlobal; SimConstructor JSProto_Error] None)
  /\ JS_New 1%nat [StringValue "new"]
       (mkContext [SimGlobal; SimConstructor JSProto_Error] None)
     = (Some 2%nat,
        mkContext [SimGlobal; SimConstructor JSProto_Error;
                   SimError JSProto_Error (StringValue "new") None] None)
  /\ cx_pending
       (after (gjs_throw "new" []
                 (after (JS_ClearPendingException occupied_context))))
     = Some (ObjectValue 2%nat).
Proof.
  do 3 (split; [reflexivity |]).
  exact (clear_then_throw_installs "new" [] occupied_context sample_context
           (mkContext [SimGlobal; SimConstructor JSProto_Error] None)
           (mkContext [SimGlobal; SimConstructor JSProto_Error;
                       SimError JSProto_Error (StringValue "new") None] None)
           (StringValue "new") 1%nat 2%nat eq_refl eq_refl eq_refl).
Defined.

Lemma pending_survives_raises_witness :
  cx_pending occupied_context <> None
  /\ after (perform_all
              (map CallRaise
                   [Throw "a %d" [ArgInt 1];
                    ThrowCustom (JSProto_Other 3) None "b" [];
                    ThrowLiteral "c"])
              occupied_context) = occupied_context
  /\ runtime_calls
       (events (perform_all
                  (map CallRaise
                       [Throw "a %d" [ArgInt 1];
                        ThrowCustom (JSProto_Other 3) None "b" [];
                        ThrowLiteral "c"])
                  occupied_context)) = [].
Proof.
  assert (Hp : cx_pending occupied_context <> None)
    by (simpl; discriminate).
  split; [exact Hp |].
  exact (pending_survives_raises
           [Throw "a %d" [ArgInt 1];
            ThrowCustom (JSProto_Other 3) None "b" [];
            ThrowLiteral "c"]
           occupied_context Hp).
Defined.

Lemma pending_survives_raises_and_traces_witness :
  forallb (fun c => negb (is_throw_g_error c))
    [CallRaise (Throw "a" []); CallFormatStackTrace (Some 5%nat);
     CallRaise (ThrowLiteral "b")] = true
  /\ cx_pending occupied_context <> None
  /\ cx_pending
       (after (perform_all
                 [CallRaise (Throw "a" []); CallFormatStackTrace (Some 5%nat);
                  CallRaise (ThrowLiteral "b")]
                 occupied_context))
     = cx_pending occupied_context.
Proof.
  assert (Hp : cx_pending occupied_context <> None)
    by (simpl; discriminate).
  split; [reflexivity | split; [exact Hp |]].
  exact (pending_survives_raises_and_traces
           [CallRaise (Throw "a" []); CallFormatStackTrace (Some 5%nat);
            CallRaise (ThrowLiteral "b")]
           occupied_context eq_refl Hp).
Defined.

Lemma gerror_exception_is_kept_witness :
  gjs_error_from_gerror (mkGError 5 2 "No such file") true sample_context
  = (Some 1%nat,
     mkContext [SimGlobal; SimGError (mkGError 5 2 "No such file")] None)
  /\ after (raise (Throw "later" [])
              (after (gjs_throw_g_error (Some (mkGError 5 2 "No such file"))
                        sample_context)))
     = mkContext
         (cx_heap
            (mkContext [SimGlobal; SimGError (mkGError 5 2 "No such file")]
                       None))
         (Some (ObjectValue 1%nat)).
Proof.
  split; [reflexivity |].
  exact (gerror_exception_is_kept (mkGError 5 2 "No such file")
           (Throw "later" []) sample_context
           (mkContext [SimGlobal; SimGError (mkGError 5 2 "No such file")]
                      None)
           1%nat eq_refl).
Defined.

Lemma throw_g_error_conversion_failure_witness :
  @gjs_error_from_gerror unit exhausted_runtime
     (mkGError 5 2 "No such file") true
     (mkContext tt (Some (StringValue "old")))
  = (None, mkContext tt (Some (StringValue "old")))
  /\ after (@gjs_throw_g_error unit exhausted_runtime
              (Some (mkGError 5 2 "No such file"))
              (mkContext tt (Some (StringValue "old"))))
     = mkContext tt (Some (StringValue "old"))
  /\ freed_errors
       (events (@gjs_throw_g_error unit exhausted_runtime
                  (Some (mkGError 5 2 "No such file"))
                  (mkContext tt (Some (StringValue "old")))))
     = [mkGError 5 2 "No such file"].
Proof.
  split; [reflexivity |].
  exact (@throw_g_error_conversion_failure unit exhausted_runtime
           (mkGError 5 2 "No such file")
           (mkContext tt (Some (StringValue "old")))
           (mkContext tt (Some (StringValue "old"))) eq_refl).
Defined.

Lemma format_stack_trace_build_failure_witness :
  BuildStackString (Some 5%nat) 2 (mkContext (cx_heap occupied_context) None)
  = (None, mkContext [SimGlobal] (Some UndefinedValue))
  /\ gjs_format_stack_trace (Some 5%nat) occupied_context =
       mkResult None
         (mkContext (cx_heap (mkContext [SimGlobal] (Some UndefinedValue)))
                    (cx_pending occupied_context))
         [EvRuntime (Call_BuildStackString (Some 5%nat) 2)].
Proof.
  split; [reflexivity |].
  exact (format_stack_trace_build_failure (Some 5%nat) occupied_context
           (mkContext [SimGlobal] (Some UndefinedValue)) eq_refl).
Defined.

Lemma throw_plain_text_is_literal_witness :
  ~ In "%"%char (list_ascii_of_string "done")
  /\ gjs_throw "done" [ArgInt 1] sample_context
     = gjs_throw_literal "done" sample_context.
Proof.
  assert (Hn : ~ In "%"%char (list_ascii_of_string "done")).
  { simpl. intros H.
    repeat (destruct H as [H|H]; [discriminate H|]). exact H. }
  split; [exact Hn |].
  exact (throw_plain_text_is_literal "done" [ArgInt 1] sample_context Hn).
Defined.

(** ** Two raises in a row *)

Section Precedence.

Context {heap : Type} {R : Runtime heap}.

Lemma set_error_name_granted (exc : JSObject) (name : option string)
      (cx3 cx4 : JSContext heap) :
  name_is_set exc name cx3 cx4 ->
  value (set_error_name exc name cx3) = true
  /\ after (set_error_name exc name cx3) = cx4.
Proof.
  destruct name as [name|]; cbn [name_is_set].
  - intros (name_value & cx' & H1 & H2). unfold_bridge. cbn.
    rewrite H1. cbn. rewrite H2. cbn. split; reflexivity.
  - intros ->. split; reflexivity.
Qed.

(** The success path of [gjs_throw_valist], with or without a name. *)
Lemma throw_valist_installs_object
      (kind : JSProtoKey) (name : option string) (format : string)
      (args : list printf_arg) (cx cx1 cx2 cx3 cx4 : JSContext heap)
      (arg0 : JSValue) (ctor exc : JSObject) :
  cx_pending cx = None ->
  gjs_string_from_utf8 (g_strdup_vprintf format args) cx = (Some arg0, cx1) ->
  JS_GetClassObject kind cx1 = (Some ctor, cx2) ->
  JS_New ctor [arg0] cx2 = (Some exc, cx3) ->
  name_is_set exc name cx3 cx4 ->
  after (gjs_throw_valist kind name format args cx)
  = mkContext (cx_heap cx4) (Some (ObjectValue exc)).
Proof.
  intros Hp H0 H1 H2 Hn.
  destruct (set_error_name_granted exc name cx3 cx4 Hn) as (Hv & Ha).
  unfold gjs_throw_valist, build_and_install, report_error, gjs_debug,
    JS_BeginRequest, JS_EndRequest, JS_IsExceptionPending,
    JS_SetPendingException, runtime, emit, bind, ret.
  cbn -[set_error_name]. rewrite Hp. cbn -[set_error_name].
  rewrite H0. cbn -[set_error_name]. rewrite H1. cbn -[set_error_name].
  rewrite H2. cbn -[set_error_name].
  destruct (set_error_name exc name cx3) as [v c t]. cbn in Hv, Ha.
  subst v c. reflexivity.
Qed.

(** A raise asking for a class of the closed set is the engine run on
    that class, that name and that message. *)
Lemma raise_runs_engine (r : RaiseCall) (cx : JSContext heap) :
  In (raise_kind r) ErrorKind ->
  exists (format : string) (args : list printf_arg),
    raise r cx = gjs_throw_valist (raise_kind r) (raise_name r) format args cx
    /\ g_strdup_vprintf format args = raise_message r.
Proof.
  intros Hk. destruct r as [format args|kind name format args|text]; cbn.
  - exists format, args. split; reflexivity.
  - exists format, args. unfold gjs_throw_custom.
    apply is_error_kind_spec in Hk. cbn in Hk. rewrite Hk.
    split; reflexivity.
  - exists "%s", [ArgString text]. split; reflexivity.
Qed.

(** What a raise records when an exception is pending: the suppression
    of its message for a class of the closed set, the failed entry check
    otherwise. *)
Lemma raise_events_when_pending (r : RaiseCall) (cx : JSContext heap) :
  cx_pending cx <> None ->
  events (raise r cx) =
    if is_error_kind (raise_kind r) then
      [EvAlloc (raise_message r);
       EvEnterCompartment (gjs_get_import_global cx);
       EvBeginRequest;
       EvDebug GJS_DEBUG_CONTEXT
         ("Ignoring second exception: '" ++ raise_message r ++ "'");
       EvFree (raise_message r);
       EvEndRequest;
       EvLeaveCompartment]
    else [EvCritical "gjs_throw_custom" kind_check_text].
Proof.
  intros Hp.
  destruct r as [format args|kind name format args|text];
    cbn [raise raise_kind raise_message is_error_kind];
    unfold gjs_throw_literal, gjs_throw, gjs_throw_custom;
    try destruct (is_error_kind kind);
    try rewrite (throw_valist_suppressed _ _ _ _ _ Hp);
    reflexivity.
Qed.

(** C1, as the code has it: two raises in a row on one context, the
    first asking for a class of the closed set and, where no exception
    was pending, served by the runtime.  After the first call the slot
    holds what was pending before or else the object the first call
    built; the second call, whatever its entry point and class, hands the
    context back as the first left it, so that object or that earlier
    exception is what stays pending.  A second call with a class of the
    closed set only formats its message, logs it on the debug topic as
    ignored, frees the buffer and leaves the request; one with a foreign
    class only fails its entry check. *)
Theorem first_raise_wins
        (first second : RaiseCall) (cx cx1 cx2 cx3 cx4 : JSContext heap)
        (arg0 : JSValue) (ctor exc : JSObject) :
  In (raise_kind first) ErrorKind ->
  (cx_pending cx = None ->
   gjs_string_from_utf8 (raise_message first) cx = (Some arg0, cx1)
   /\ JS_GetClassObject (raise_kind first) cx1 = (Some ctor, cx2)
   /\ JS_New ctor [arg0] cx2 = (Some exc, cx3)
   /\ name_is_set exc (raise_name first) cx3 cx4) ->
  after (raise first cx) =
    match cx_pending cx with
    | Some _ => cx
    | None => mkContext (cx_heap cx4) (Some (ObjectValue exc))
    end
  /\ after (raise second (after (raise first cx))) = after (raise first cx)
  /\ cx_pending (after (raise second (after (raise first cx)))) =
       match cx_pending cx with
       | Some earlier => Some earlier
       | None => Some (ObjectValue exc)
       end
  /\ events (raise second (after (raise first cx))) =
       if is_error_kind (raise_kind second) then
         [EvAlloc (raise_message second);
          EvEnterCompartment
            (gjs_get_import_global (after (raise first cx)));
          EvBeginRequest;
          EvDebug GJS_DEBUG_CONTEXT
            ("Ignoring second exception: '" ++ raise_message second ++ "'");
          EvFree (raise_message second);
          EvEndRequest;
          EvLeaveCompartment]
       else [EvCritical "gjs_throw_custom" kind_check_text].
Proof.
  intros Hk Hrt.
  assert (Hfirst : after (raise first cx) =
                   match cx_pending cx with
                   | Some _ => cx
                   | None => mkContext (cx_heap cx4) (Some (ObjectValue exc))
                   end).
  { destruct (cx_pending cx) as [earlier|] eqn:Hp.
    - apply raise_keeps_context. congruence.
    - destruct (Hrt eq_refl) as (H0 & H1 & H2 & Hn).
      destruct (raise_runs_engine first cx Hk) as (format & args & -> & Hm).
      rewrite <- Hm in H0.
      exact (throw_valist_installs_object _ _ _ _ _ _ _ _ _ _ _ _
               Hp H0 H1 H2 Hn). }
  assert (Hp1 : cx_pending (after (raise first cx)) <> None).
  { rewrite Hfirst. destruct (cx_pending cx) eqn:Hp; cbn; congruence. }
  destruct (raise_keeps_context second (after (raise first cx)) Hp1)
    as (Hsecond & _).
  split; [exact Hfirst|]. split; [exact Hsecond|]. split.
  - rewrite Hsecond, Hfirst.
    destruct (cx_pending cx) eqn:Hp; [exact Hp | reflexivity].
  - apply raise_events_when_pending. exact Hp1.
Qed.

End Precedence.

Lemma first_raise_wins_witness :
  In (raise_kind (ThrowCustom JSProto_TypeError (Some "MyError") "first %d"
                    [ArgInt 1])) ErrorKind
  /\ (cx_pending sample_context = None ->
      gjs_string_from_utf8
        (raise_message (ThrowCustom JSProto_TypeError (Some "MyError")
                          "first %d" [ArgInt 1])) sample_context
      = (Some (StringValue "first 1"), sample_context)
      /\ JS_GetClassObject
           (raise_kind (ThrowCustom JSProto_TypeError (Some "MyError")
                          "first %d" [ArgInt 1])) sample_context
         = (Some 1%nat,
            mkContext [SimGlobal; SimConstructor JSProto_TypeError] None)
      /\ JS_New 1%nat [StringValue "first 1"]
           (mkContext [SimGlobal; SimConstructor JSProto_TypeError] None)
         = (Some 2%nat,
            mkContext [SimGlobal; SimConstructor JSProto_TypeError;
                       SimError JSProto_TypeError (StringValue "first 1")
                         None] None)
      /\ name_is_set 2%nat
           (raise_name (ThrowCustom JSProto_TypeError (Some "MyError")
                          "first %d" [ArgInt 1]))
           (mkContext [SimGlobal; SimConstructor JSProto_TypeError;
                       SimError JSProto_TypeError (StringValue "first 1")
                         None] None)
           (mkContext [SimGlobal; SimConstructor JSProto_TypeError;
                       SimError JSProto_TypeError (StringValue "first 1")
                         (Some (StringValue "MyError"))] None))
  /\ after (raise (ThrowCustom JSProto_TypeError (Some "MyError") "first %d"
                     [ArgInt 1]) sample_context)
     = mkContext [SimGlobal; SimConstructor JSProto_TypeError;
                  SimError JSProto_TypeError (StringValue "first 1")
                    (Some (StringValue "MyError"))]
                 (Some (ObjectValue 2%nat))
  /\ after (raise (ThrowLiteral "second")
              (after (raise (ThrowCustom JSProto_TypeError (Some "MyError")
                               "first %d" [ArgInt 1]) sample_context)))
     = after (raise (ThrowCustom JSProto_TypeError (Some "MyError")
                       "first %d" [ArgInt 1]) sample_context)
  /\ cx_pending
       (after (raise (ThrowLiteral "second")
                 (after (raise (ThrowCustom JSProto_TypeError
                                  (Some "MyError") "first %d" [ArgInt 1])
                               sample_context))))
     = Some (ObjectValue 2%nat)
  /\ events (raise (ThrowLiteral "second")
               (after (raise (ThrowCustom JSProto_TypeError (Some "MyError")
                                "first %d" [ArgInt 1]) sample_context)))
     = [EvAlloc "second";
        EvEnterCompartment O;
        EvBeginRequest;
        EvDebug GJS_DEBUG_CONTEXT "Ignoring second exception: 'second'";
        EvFree "second";
        EvEndRequest;
        EvLeaveCompartment].
Proof.
  assert (Hk : In (raise_kind (ThrowCustom JSProto_TypeError (Some "MyError")
                                 "first %d" [ArgInt 1])) ErrorKind)
    by (simpl; tauto).
  assert (Hrt : cx_pending sample_context = None ->
      gjs_string_from_utf8
        (raise_message (ThrowCustom JSProto_TypeError (Some "MyError")
                          "first %d" [ArgInt 1])) sample_context
      = (Some (StringValue "first 1"), sample_context)
      /\ JS_GetClassObject
           (raise_kind (ThrowCustom JSProto_TypeError (Some "MyError")
                          "first %d" [ArgInt 1])) sample_context
         = (Some 1%nat,
            mkContext [SimGlobal; SimConstructor JSProto_TypeError] None)
      /\ JS_New 1%nat [StringValue "first 1"]
           (mkContext [SimGlobal; SimConstructor JSProto_TypeError] None)
         = (Some 2%nat,
            mkContext [SimGlobal; SimConstructor JSProto_TypeError;
                       SimError JSProto_TypeError (StringValue "first 1")
                         None] None)
      /\ name_is_set 2%nat
           (raise_name (ThrowCustom JSProto_TypeError (Some "MyError")
                          "first %d" [ArgInt 1]))
           (mkContext [SimGlobal; SimConstructor JSProto_TypeError;
                       SimError JSProto_TypeError (StringValue "first 1")
                         None] None)
           (mkContext [SimGlobal; SimConstructor JSProto_TypeError;
                       SimError JSProto_TypeError (StringValue "first 1")
                         (Some (StringValue "MyError"))] None)).
  { intros _. do 3 (split; [reflexivity |]).
    simpl. exists (StringValue "MyError").
    exists (mkContext [SimGlobal; SimConstructor JSProto_TypeError;
                       SimError JSProto_TypeError (StringValue "first 1")
                         None] None).
    split; reflexivity. }
  split; [exact Hk | split; [exact Hrt |]].
  exact (first_raise_wins
           (ThrowCustom JSProto_TypeError (Some "MyError") "first %d"
              [ArgInt 1])
           (ThrowLiteral "second") sample_context sample_context
           (mkContext [SimGlobal; SimConstructor JSProto_TypeError] None)
           (mkContext [SimGlobal; SimConstructor JSProto_TypeError;
                       SimError JSProto_TypeError (StringValue "first 1")
                         None] None)
           (mkContext [SimGlobal; SimConstructor JSProto_TypeError;
                       SimError JSProto_TypeError (StringValue "first 1")
                         (Some (StringValue "MyError"))] None)
           (StringValue "first 1") 1%nat 2%nat Hk Hrt).
Defined.

(** The claim as worded, at a first call that is turned away: a
    [gjs_throw_custom] with a foreign class installs nothing, so the
    [gjs_throw] after it makes its own object pending and the slot does
    change under the second call; and a second [gjs_throw_custom] with a
    foreign class, met by a pending exception, logs the failed entry
    check and not its suppressed message. *)
Lemma rejected_first_raise_lets_second_through :
  cx_pending
    (after (raise (ThrowCustom (JSProto_Other 3) None "first" [])
                  sample_context)) = None
  /\ pending_object
       (after (raise (Throw "second" [])
                 (after (raise (ThrowCustom (JSProto_Other 3) None "first" [])
                               sample_context))))
     = Some (SimError JSProto_Error (StringValue "second") None)
  /\ cx_pending
       (after (raise (Throw "second" [])
                 (after (raise (ThrowCustom (JSProto_Other 3) None "first" [])
                               sample_context))))
     <> cx_pending
          (after (raise (ThrowCustom (JSProto_Other 3) None "first" [])
                        sample_context))
  /\ events
       (raise (ThrowCustom (JSProto_Other 3) None "second" [])
              (after (raise (Throw "first" []) sample_context)))
     = [EvCritical "gjs_throw_custom" kind_check_text].
Proof.
  split; [reflexivity |]. split; [reflexivity |].
  split; [vm_compute; discriminate | reflexivity].
Qed.
